(** * hw/arm/virt-cortex-m.c : the "virt_cortex_m" board

    A shallow embedding of the board file: the machine object with its three
    board parameters, the property accessors and their registration, the
    instance initialiser, and the board assembly routine
    [virt_cortex_m_init].

    The routine talks to the rest of the emulator (memory regions, qdev,
    sysbus, the kernel loader).  Those callees are not part of this file;
    the embedding records every call with its arguments as the callee
    receives them, lets a [Platform] decide which of the fallible calls
    report an error, and keeps the one global the routine writes,
    [system_clock_scale], in the state. *)

From Stdlib Require Import ZArith Lia.
From stdpp Require Import base option list strings gmap.

Local Open Scope Z_scope.

(* ===================================================================== *)
(** ** C integer types *)
(* ===================================================================== *)

(** Values of C integer types are kept as [Z]; a conversion to a type of
    width [w] is written out.  Signed arithmetic wraps (two's complement,
    the emulator is built with [-fwrapv]); a narrowing conversion keeps the
    low bits.  Integer division by zero has no result. *)
Module C.

Definition to_unsigned (w x : Z) : Z := x mod 2 ^ w.

Definition to_signed (w x : Z) : Z :=
  (x + 2 ^ (w - 1)) mod 2 ^ w - 2 ^ (w - 1).

Definition int64_t : Z -> Z := to_signed 64.
Definition int : Z -> Z := to_signed 32.
Definition uint32_t : Z -> Z := to_unsigned 32.
Definition uint64_t : Z -> Z := to_unsigned 64.

Definition INT64_MIN : Z := - 2 ^ 63.
Definition INT64_MAX : Z := 2 ^ 63 - 1.

Definition is_int64 (x : Z) : Prop := INT64_MIN <= x <= INT64_MAX.
Definition is_int (x : Z) : Prop := - 2 ^ 31 <= x < 2 ^ 31.
Definition is_uint32 (x : Z) : Prop := 0 <= x < 2 ^ 32.
Definition is_uint64 (x : Z) : Prop := 0 <= x < 2 ^ 64.

(** [a * b] at type [int64_t]. *)
Definition mul64 (a b : Z) : Z := int64_t (a * b).

(** [a / b] at type [int64_t]: truncation towards zero; no result when
    the divisor is zero or the quotient is not representable. *)
Definition div64 (a b : Z) : option Z :=
  if b =? 0 then None
  else if (a =? INT64_MIN) && (b =? -1) then None
  else Some (Z.quot a b).

End C.

(* ===================================================================== *)
(** ** The machine object *)
(* ===================================================================== *)

(** The fields of [MachineState] that the board reads.  [ram_size] is a
    [ram_addr_t] (unsigned), [kernel_filename] may be a null pointer. *)
Record MachineState := {
  ram_size : Z;
  cpu_type : string;
  kernel_filename : option string;
}.

Record VirtCortexMMachineState := {
  parent_obj : MachineState;
  flash_size_kb : Z;
  freq_mhz : Z;
  num_irq : Z;
}.

(** Field updates, as the assignments [m->f = v] of the source. *)
Definition set_flash_size_kb (v : Z) (m : VirtCortexMMachineState) :=
  {| parent_obj := parent_obj m; flash_size_kb := v;
     freq_mhz := freq_mhz m; num_irq := num_irq m |}.

Definition set_freq_mhz (v : Z) (m : VirtCortexMMachineState) :=
  {| parent_obj := parent_obj m; flash_size_kb := flash_size_kb m;
     freq_mhz := v; num_irq := num_irq m |}.

Definition set_num_irq (v : Z) (m : VirtCortexMMachineState) :=
  {| parent_obj := parent_obj m; flash_size_kb := flash_size_kb m;
     freq_mhz := freq_mhz m; num_irq := v |}.

(** The values the fields can hold, by their C types. *)
Definition wf_machine (m : VirtCortexMMachineState) : Prop :=
  C.is_int64 (flash_size_kb m) /\ C.is_int64 (freq_mhz m) /\
  C.is_int64 (num_irq m) /\ C.is_uint64 (ram_size (parent_obj m)).

(* ===================================================================== *)
(** ** Calls into the platform *)
(* ===================================================================== *)

(** The memory regions the routine names: the two it allocates and the
    one returned by [get_system_memory()]. *)
Inductive MemoryRegion := sram | flash | system_memory.

Inductive DeviceType := TYPE_ARMV7M.

(** The device returned by [qdev_new(TYPE_ARMV7M)]. *)
Inductive DeviceState := nvic.

(** The CPU object [ARM_CPU(first_cpu)]. *)
Inductive ARMCPU := first_cpu.

#[global] Instance MemoryRegion_eq_dec : EqDecision MemoryRegion.
Proof. solve_decision. Defined.

(** One constructor per callee, with the arguments of the call as the
    callee receives them, that is converted to the types of its
    parameters: the [size] of [memory_region_init_rom] and
    [memory_region_init_ram] is a [uint64_t], the [value] of
    [qdev_prop_set_uint32] a [uint32_t], the [mem_size] of
    [armv7m_load_kernel] an [int]. *)
Inductive Call :=
| memory_region_init_rom (mr : MemoryRegion) (name : string) (size : Z)
| memory_region_init_ram (mr : MemoryRegion) (name : string) (size : Z)
| memory_region_add_subregion (mr : MemoryRegion) (offset : Z)
                              (subregion : MemoryRegion)
| qdev_new (ty : DeviceType)
| qdev_prop_set_uint32 (dev : DeviceState) (name : string) (value : Z)
| qdev_prop_set_string (dev : DeviceState) (name : string) (value : string)
| qdev_prop_set_bit (dev : DeviceState) (name : string) (value : bool)
| object_property_set_link (dev : DeviceState) (name : string)
                           (target : MemoryRegion)
| sysbus_realize (dev : DeviceState)
| armv7m_load_kernel (cpu : ARMCPU) (kernel_filename : option string)
                     (mem_size : Z).

(** What a callee that takes an [Error **errp] does: it returns a value,
    or it reports an error through [errp]. *)
Inductive Reply (A : Type) :=
| Returns (a : A)
| Fails.
Arguments Returns {A} a.
Arguments Fails {A}.

(** The error destinations the routine passes. *)
Inductive Errp := error_fatal | error_abort.

(** How the platform answers the four fallible calls of one run of the
    routine (each is made at most once). *)
Record Platform := {
  init_rom_reply : Reply unit;
  init_ram_reply : Reply unit;
  set_link_reply : Reply unit;
  realize_reply : Reply bool;
}.

(* ===================================================================== *)
(** ** State and control *)
(* ===================================================================== *)

(** [system_clock_scale] is [None] until it is assigned. *)
Record World := {
  machine : VirtCortexMMachineState;
  system_clock_scale : option Z;
  trace : list Call;
}.

Definition boot (m : VirtCortexMMachineState) : World :=
  {| machine := m; system_clock_scale := None; trace := [] |}.

(** Why a run did not come back to its caller. *)
Inductive Stop :=
| Exit        (* an error reached [error_fatal]: exit(1) *)
| Abort       (* an error reached [error_abort]: abort() *)
| DivideError. (* integer division without a result (undefined in C) *)

Inductive Outcome (A : Type) :=
| Returned (a : A) (w : World)
| Stopped (why : Stop) (w : World).
Arguments Returned {A} a w.
Arguments Stopped {A} why w.

Definition final {A} (o : Outcome A) : World :=
  match o with
  | Returned _ w => w
  | Stopped _ w => w
  end.

Definition M (A : Type) : Type := World -> Outcome A.

Definition ret {A} (a : A) : M A := fun w => Returned a w.

Definition bind {A B} (c : M A) (k : A -> M B) : M B :=
  fun w =>
    match c w with
    | Returned a w' => k a w'
    | Stopped why w' => Stopped why w'
    end.

Declare Scope board_scope.
Delimit Scope board_scope with board.
Notation "x <- c ;; k" := (bind c (fun x => k))
  (at level 100, c at next level, right associativity) : board_scope.
Notation "c ;; k" := (bind c (fun _ => k))
  (at level 100, right associativity) : board_scope.

Definition stop {A} (why : Stop) : M A := fun w => Stopped why w.

Definition read_machine : M VirtCortexMMachineState :=
  fun w => Returned (machine w) w.

Definition emit (c : Call) : M unit :=
  fun w => Returned tt {| machine := machine w;
                          system_clock_scale := system_clock_scale w;
                          trace := trace w ++ [c] |}.

Definition write_system_clock_scale (v : Z) : M unit :=
  fun w => Returned tt {| machine := machine w;
                          system_clock_scale := Some v;
                          trace := trace w |}.

(** A reported error ends the process according to the [errp] passed. *)
Definition report (e : Errp) : Stop :=
  match e with
  | error_fatal => Exit
  | error_abort => Abort
  end.

(** A call that takes an [errp]. *)
Definition call_errp {A} (c : Call) (r : Reply A) (e : Errp) : M A :=
  (emit c ;;
   match r with
   | Returns a => ret a
   | Fails => stop (report e)
   end)%board.

Definition eval (o : option Z) : M Z :=
  match o with
  | Some v => ret v
  | None => stop DivideError
  end.

Definition load {A} (f : VirtCortexMMachineState -> A) : M A :=
  fun w => Returned (f (machine w)) w.

(* ===================================================================== *)
(** ** Board assembly *)
(* ===================================================================== *)

(** Modelled from the spec: the macro [NANOSECONDS_PER_SECOND] comes from
    qemu/timer.h, which is not part of this file; the spec gives its value
    as 1_000_000_000 (a 64-bit constant). *)
Definition NANOSECONDS_PER_SECOND : Z := 1000000000.

(** The right-hand side of the assignment to [system_clock_scale], as a
    function of [m->freq_mhz]: [NANOSECONDS_PER_SECOND / (f * 1000 * 1000)]
    at type [int64_t]. *)
Definition clock_scale_expr (f : Z) : option Z :=
  C.div64 NANOSECONDS_PER_SECOND (C.mul64 (C.mul64 f 1000) 1000).

(** [virt_cortex_m_init(ms)].  [m] and [ms] point to the same object, the
    [machine] of the world, and its fields are read where the source reads
    them.  [flash] and [sram] stand for the two [g_new] allocations,
    [system_memory] for the result of [get_system_memory()].  The two
    sizes are [int] locals, converted to [uint64_t] where a region is
    created with them and passed as they are to the loader;
    [system_clock_scale] is an [int]. *)
Definition virt_cortex_m_init (P : Platform) : M unit :=
  (kb <- load flash_size_kb ;;
   let flash_size := C.int (C.mul64 kb 1024) in
   ram <- load (fun m => ram_size (parent_obj m)) ;;
   let sram_size := C.int ram in

   call_errp (memory_region_init_rom flash "virt_cortex_m.flash"
                (C.uint64_t flash_size))
             (init_rom_reply P) error_fatal ;;
   emit (memory_region_add_subregion system_memory 0 flash) ;;

   call_errp (memory_region_init_ram sram "virt_cortex_m.sram"
                (C.uint64_t sram_size))
             (init_ram_reply P) error_fatal ;;
   emit (memory_region_add_subregion system_memory 0x20000000 sram) ;;

   emit (qdev_new TYPE_ARMV7M) ;;

   irqs <- load num_irq ;;
   emit (qdev_prop_set_uint32 nvic "num-irq" (C.uint32_t irqs)) ;;
   cpu <- load (fun m => cpu_type (parent_obj m)) ;;
   emit (qdev_prop_set_string nvic "cpu-type" cpu) ;;
   emit (qdev_prop_set_bit nvic "enable-bitband" true) ;;
   call_errp (object_property_set_link nvic "memory" system_memory)
             (set_link_reply P) error_abort ;;

   realized <- call_errp (sysbus_realize nvic) (realize_reply P) error_fatal ;;
   if negb realized then ret tt
   else
     f <- load freq_mhz ;;
     scale <- eval (clock_scale_expr f) ;;
     write_system_clock_scale (C.int scale) ;;
     kernel <- load (fun m => kernel_filename (parent_obj m)) ;;
     emit (armv7m_load_kernel first_cpu kernel flash_size))%board.

(* ===================================================================== *)
(** ** Property accessors *)
(* ===================================================================== *)

(** Modelled from the spec: [Visitor] and [visit_type_int64] belong to the
    QAPI visitor framework (qapi/visitor.h), which is not part of this
    file.  By the spec a parameter's [set] overwrites the current value
    with the int64 it is given and its [get] returns the current value
    without side effect; both accessors of the source are the same call
    of [visit_type_int64] on the field, so the direction is the
    visitor's: an input visitor carries the value to store (or nothing,
    when its input is malformed, and then it reports an error and leaves
    the field alone), an output visitor collects the values handed to it
    under their names. *)
Inductive Visitor :=
| InputVisitor (input : option Z)
| OutputVisitor (output : list (string * Z)).

(** [visit_type_int64(v, name, &field, errp)]: the visitor afterwards,
    the field afterwards, and whether an error was reported. *)
Definition visit_type_int64 (v : Visitor) (name : string) (field : Z)
  : Visitor * Z * bool :=
  match v with
  | InputVisitor (Some x) => (v, x, false)
  | InputVisitor None => (v, field, true)
  | OutputVisitor out => (OutputVisitor (out ++ [(name, field)]), field, false)
  end.

(** An accessor [void f(Object *obj, Visitor *v, const char *name,
    void *opaque, Error **errp)]: the object and the visitor afterwards,
    and whether an error was reported.  None of the accessors below looks
    at [opaque]. *)
Definition Accessor : Type :=
  VirtCortexMMachineState -> Visitor -> string ->
  VirtCortexMMachineState * Visitor * bool.

Definition flash_size_set : Accessor := fun m v name =>
  let '(v', x, err) := visit_type_int64 v name (flash_size_kb m) in
  (set_flash_size_kb x m, v', err).

Definition flash_size_get : Accessor := fun m v name =>
  let '(v', x, err) := visit_type_int64 v name (flash_size_kb m) in
  (set_flash_size_kb x m, v', err).

Definition freq_mhz_set : Accessor := fun m v name =>
  let '(v', x, err) := visit_type_int64 v name (freq_mhz m) in
  (set_freq_mhz x m, v', err).

Definition freq_mhz_get : Accessor := fun m v name =>
  let '(v', x, err) := visit_type_int64 v name (freq_mhz m) in
  (set_freq_mhz x m, v', err).

Definition num_irq_set : Accessor := fun m v name =>
  let '(v', x, err) := visit_type_int64 v name (num_irq m) in
  (set_num_irq x m, v', err).

Definition num_irq_get : Accessor := fun m v name =>
  let '(v', x, err) := visit_type_int64 v name (num_irq m) in
  (set_num_irq x m, v', err).

(* ===================================================================== *)
(** ** Class and instance initialisation *)
(* ===================================================================== *)

Record ObjectProperty := {
  prop_type : string;
  prop_get : Accessor;
  prop_set : Accessor;
  prop_description : option string;
}.

(** The macro [ARM_CPU_TYPE_NAME] is kept symbolic. *)
Inductive CpuTypeName := ARM_CPU_TYPE_NAME (model : string).

(** The class: the [MachineClass] fields the board fills in and the
    class properties, by name. *)
Record MachineClass := {
  desc : option string;
  init : option (Platform -> M unit);
  ignore_memory_transaction_failures : bool;
  default_cpu_type : option CpuTypeName;
  properties : gmap string ObjectProperty;
}.

Definition empty_class : MachineClass :=
  {| desc := None; init := None;
     ignore_memory_transaction_failures := false;
     default_cpu_type := None; properties := ∅ |}.

Definition with_properties (f : gmap string ObjectProperty ->
                                gmap string ObjectProperty)
                           (oc : MachineClass) : MachineClass :=
  {| desc := desc oc; init := init oc;
     ignore_memory_transaction_failures :=
       ignore_memory_transaction_failures oc;
     default_cpu_type := default_cpu_type oc;
     properties := f (properties oc) |}.

(** Modelled from the spec: [object_class_property_add] and
    [object_class_property_set_description] belong to the object
    framework (qom/object.h), which is not part of this file; by the spec
    the board registers, per parameter, an accessor pair and a
    description under the parameter's name.

    [object_class_property_add(oc, name, type, get, set, NULL, NULL)]
    enters the property under [name]. *)
Definition object_class_property_add (name type : string)
    (get set : Accessor) : MachineClass -> MachineClass :=
  with_properties
    (insert name {| prop_type := type; prop_get := get; prop_set := set;
                    prop_description := None |}).

(** [object_class_property_set_description(oc, name, description)]
    attaches the description to the property registered under [name]. *)
Definition object_class_property_set_description (name description : string)
  : MachineClass -> MachineClass :=
  with_properties
    (alter (fun p => {| prop_type := prop_type p; prop_get := prop_get p;
                        prop_set := prop_set p;
                        prop_description := Some description |}) name).

Definition virt_cortex_m_class_init (oc : MachineClass) : MachineClass :=
  let mc :=
    {| desc := Some "Virtual ARM Cortex-M";
       init := Some virt_cortex_m_init;
       ignore_memory_transaction_failures := true;
       default_cpu_type := Some (ARM_CPU_TYPE_NAME "cortex-m3");
       properties := properties oc |} in
  let oc1 := object_class_property_add "flash_kb" "int"
               flash_size_get flash_size_set mc in
  let oc2 := object_class_property_set_description "flash_kb"
               "Flash size in KB" oc1 in
  let oc3 := object_class_property_add "freq_mhz" "int"
               freq_mhz_get freq_mhz_set oc2 in
  let oc4 := object_class_property_set_description "freq_mhz"
               "MCU frequency in MHz" oc3 in
  let oc5 := object_class_property_add "num_irq" "int"
               num_irq_get num_irq_set oc4 in
  object_class_property_set_description "num_irq" "Number of IRQs" oc5.

Definition virt_cortex_m_instance_init (m : VirtCortexMMachineState)
  : VirtCortexMMachineState :=
  let m1 := set_flash_size_kb (1 * 1024) m in
  let m2 := set_freq_mhz 50 m1 in
  set_num_irq 64 m2.

(** Modelled from the spec: the object framework's [object_property_set]
    and [object_property_get] (qom/object.h) are not part of this file.
    Setting a property runs the registered [set] accessor with an input
    visitor holding the value; getting it runs the registered [get]
    accessor with an empty output visitor and takes the value the
    accessor hands over. *)
Definition object_property_set (oc : MachineClass) (name : string) (value : Z)
    (m : VirtCortexMMachineState) : option VirtCortexMMachineState :=
  match properties oc !! name with
  | Some p =>
      let '(m', _, err) := prop_set p m (InputVisitor (Some value)) name in
      if err then None else Some m'
  | None => None
  end.

Definition object_property_get (oc : MachineClass) (name : string)
    (m : VirtCortexMMachineState) : option Z :=
  match properties oc !! name with
  | Some p =>
      match prop_get p m (OutputVisitor []) name with
      | (_, OutputVisitor [(_, x)], false) => Some x
      | _ => None
      end
  | None => None
  end.

(** The class of the board, as registered. *)
Definition virt_cortex_m_class : MachineClass :=
  virt_cortex_m_class_init empty_class.

(* ===================================================================== *)
(** ** Reading the result of assembly off the calls *)
(* ===================================================================== *)

(** Size given to a region when it was initialised. *)
Fixpoint region_size (mr : MemoryRegion) (t : list Call) : option Z :=
  match t with
  | [] => None
  | memory_region_init_rom r _ size :: t'
  | memory_region_init_ram r _ size :: t' =>
      if decide (r = mr) then Some size else region_size mr t'
  | _ :: t' => region_size mr t'
  end.

(** Offset at which a region was mapped into the global address space. *)
Fixpoint region_base (mr : MemoryRegion) (t : list Call) : option Z :=
  match t with
  | [] => None
  | memory_region_add_subregion system_memory offset r :: t' =>
      if decide (r = mr) then Some offset else region_base mr t'
  | _ :: t' => region_base mr t'
  end.

Definition is_load_kernel (c : Call) : bool :=
  match c with
  | armv7m_load_kernel _ _ _ => true
  | _ => false
  end.

(** The calls made by one run of assembly on machine [m]. *)
Definition calls (P : Platform) (m : VirtCortexMMachineState) : list Call :=
  trace (final (virt_cortex_m_init P (boot m))).

(** The clock scale published by one run of assembly on machine [m]. *)
Definition published_scale (P : Platform) (m : VirtCortexMMachineState)
  : option Z :=
  system_clock_scale (final (virt_cortex_m_init P (boot m))).

(** A platform on which every call succeeds. *)
Definition cooperative (P : Platform) : Prop :=
  init_rom_reply P = Returns tt /\ init_ram_reply P = Returns tt /\
  set_link_reply P = Returns tt /\ realize_reply P = Returns true.

Definition all_ok : Platform :=
  {| init_rom_reply := Returns tt; init_ram_reply := Returns tt;
     set_link_reply := Returns tt; realize_reply := Returns true |}.

(** The half-open address range [base, base + size) a region covers. *)
Definition region_range (mr : MemoryRegion) (t : list Call) : option (Z * Z) :=
  b ← region_base mr t; s ← region_size mr t; Some (b, b + s).

(** A property value set on a device. *)
Inductive PropValue :=
| PUint32 (v : Z)
| PString (s : string)
| PBit (b : bool)
| PLink (target : MemoryRegion).

(** The properties a device holds at the moment [sysbus_realize] is called
    on it, starting from [props]; [None] when the calls never realize
    it.  A device fresh from [qdev_new] holds none. *)
Fixpoint props_at_realize (props : gmap string PropValue) (t : list Call)
  : option (gmap string PropValue) :=
  match t with
  | [] => None
  | sysbus_realize nvic :: _ => Some props
  | qdev_new TYPE_ARMV7M :: t' => props_at_realize ∅ t'
  | qdev_prop_set_uint32 nvic name v :: t' =>
      props_at_realize (<[name := PUint32 v]> props) t'
  | qdev_prop_set_string nvic name s :: t' =>
      props_at_realize (<[name := PString s]> props) t'
  | qdev_prop_set_bit nvic name b :: t' =>
      props_at_realize (<[name := PBit b]> props) t'
  | object_property_set_link nvic name target :: t' =>
      props_at_realize (<[name := PLink target]> props) t'
  | _ :: t' => props_at_realize props t'
  end.

(** A property the device holds when it is realized. *)
Definition nvic_prop (name : string) (t : list Call) : option PropValue :=
  props ← props_at_realize ∅ t; props !! name.

(** The low 32 bits of [x], read as a signed 32-bit value. *)
Definition low32_signed (x : Z) : Z :=
  let low := Z.land x (Z.ones 32) in
  if Z.testbit low 31 then low - 2 ^ 32 else low.

(** The names of the three board parameters. *)
Definition board_parameters : list string :=
  ["flash_kb"; "freq_mhz"; "num_irq"].

(* ===================================================================== *)
(** ** Example machines *)
(* ===================================================================== *)

Definition example_machine (kb mhz irqs ram : Z) : VirtCortexMMachineState :=
  {| parent_obj := {| ram_size := ram; cpu_type := "cortex-m3-arm-cpu";
                      kernel_filename := None |};
     flash_size_kb := kb; freq_mhz := mhz; num_irq := irqs |}.

(** The default parameters, with 64 KB of RAM. *)
Definition default_machine : VirtCortexMMachineState :=
  example_machine 1024 50 64 65536.

(** The scenario of the spec: 64 KB of flash, 25 MHz, 32 interrupt lines,
    16 KB of RAM. *)
Definition small_machine : VirtCortexMMachineState :=
  example_machine 64 25 32 16384.

(** A frequency whose product with 1000 * 1000 wraps to 64 at 64 bits. *)
Definition fast_machine : VirtCortexMMachineState :=
  example_machine 1024 76480200929599801 64 65536.

(** A frequency whose product with 1000 * 1000 wraps to 0 at 64 bits. *)
Definition trapping_machine : VirtCortexMMachineState :=
  example_machine 1024 (2 ^ 58) 64 65536.

(** 2^22 + 64 KB of flash: 2^32 + 65536 bytes. *)
Definition big_flash_machine : VirtCortexMMachineState :=
  example_machine 4194368 50 64 65536.

(** 2^21 KB of flash: 2^31 bytes. *)
Definition two_gb_flash_machine : VirtCortexMMachineState :=
  example_machine 2097152 50 64 65536.

(** 2^54 - 1 KB of flash: 2^64 - 1024 bytes. *)
Definition wide_flash_machine : VirtCortexMMachineState :=
  example_machine 18014398509481983 50 64 65536.

(** 2^32 + 16384 bytes of RAM. *)
Definition big_ram_machine : VirtCortexMMachineState :=
  example_machine 1024 50 64 4294983680.

(** 2^32 + 32 interrupt lines. *)
Definition many_irq_machine : VirtCortexMMachineState :=
  example_machine 1024 50 4294967328 65536.

(** A platform on which realization returns [false]. *)
Definition realize_false : Platform :=
  {| init_rom_reply := Returns tt; init_ram_reply := Returns tt;
     set_link_reply := Returns tt; realize_reply := Returns false |}.

(** A platform on which realization reports an error. *)
Definition realize_error : Platform :=
  {| init_rom_reply := Returns tt; init_ram_reply := Returns tt;
     set_link_reply := Returns tt; realize_reply := Fails |}.

(* ===================================================================== *)
(** ** How a run ends, and what it has done by then *)
(* ===================================================================== *)

(** [None] for a run that returns to its caller. *)
Definition stop_reason {A} (o : Outcome A) : option Stop :=
  match o with
  | Returned _ _ => None
  | Stopped why _ => Some why
  end.

Definition is_add_subregion (c : Call) : bool :=
  match c with
  | memory_region_add_subregion _ _ _ => true
  | _ => false
  end.

Definition is_qdev_new (c : Call) : bool :=
  match c with
  | qdev_new _ => true
  | _ => false
  end.

Definition is_realize (c : Call) : bool :=
  match c with
  | sysbus_realize _ => true
  | _ => false
  end.

(** Two half-open address ranges share an address. *)
Definition ranges_overlap (a b : Z * Z) : bool :=
  (a.1 <? b.2) && (b.1 <? a.2).

(** Platforms on which one of the earlier calls reports an error. *)
Definition rom_fails : Platform :=
  {| init_rom_reply := Fails; init_ram_reply := Returns tt;
     set_link_reply := Returns tt; realize_reply := Returns true |}.

Definition ram_fails : Platform :=
  {| init_rom_reply := Returns tt; init_ram_reply := Fails;
     set_link_reply := Returns tt; realize_reply := Returns true |}.

Definition link_fails : Platform :=
  {| init_rom_reply := Returns tt; init_ram_reply := Returns tt;
     set_link_reply := Fails; realize_reply := Returns true |}.

Arguments C.int : simpl never.
Arguments C.int64_t : simpl never.
Arguments C.uint32_t : simpl never.
Arguments C.uint64_t : simpl never.
Arguments C.mul64 : simpl never.
Arguments C.div64 : simpl never.
Arguments clock_scale_expr : simpl never.
Arguments low32_signed : simpl never.

(* ===================================================================== *)
(** ** Facts about the integer conversions *)
(* ===================================================================== *)

Section Conversions.

Lemma int_in_range x : C.is_int (C.int x).
Proof.
  unfold C.is_int, C.int, C.to_signed.
  change (2 ^ (32 - 1)) with 2147483648; change (2 ^ 31) with 2147483648.
  change (2 ^ 32) with 4294967296.
  pose proof (Z.mod_pos_bound (x + 2147483648) 4294967296). lia.
Qed.

Lemma int_id x : C.is_int x -> C.int x = x.
Proof.
  unfold C.is_int, C.int, C.to_signed.
  change (2 ^ (32 - 1)) with 2147483648; change (2 ^ 31) with 2147483648.
  change (2 ^ 32) with 4294967296.
  intros H. rewrite Z.mod_small by lia. lia.
Qed.

Lemma int64_id x : C.is_int64 x -> C.int64_t x = x.
Proof.
  unfold C.is_int64, C.INT64_MIN, C.INT64_MAX, C.int64_t, C.to_signed.
  change (2 ^ (64 - 1)) with 9223372036854775808.
  change (2 ^ 63) with 9223372036854775808.
  change (2 ^ 64) with 18446744073709551616.
  intros H. rewrite Z.mod_small by lia. lia.
Qed.

Lemma uint32_id x : C.is_uint32 x -> C.uint32_t x = x.
Proof.
  unfold C.is_uint32, C.uint32_t, C.to_unsigned. intros H.
  now rewrite Z.mod_small.
Qed.

Lemma uint64_id x : C.is_uint64 x -> C.uint64_t x = x.
Proof.
  unfold C.is_uint64, C.uint64_t, C.to_unsigned. intros H.
  now rewrite Z.mod_small.
Qed.

(** An [int] that is not negative is passed on unchanged as a size. *)
Lemma size_of_nonneg_int x : 0 <= x < 2 ^ 31 -> C.uint64_t (C.int x) = x.
Proof.
  intros H. change (2 ^ 31) with 2147483648 in H.
  rewrite int_id
    by (unfold C.is_int; change (2 ^ 31) with 2147483648; lia).
  apply uint64_id. unfold C.is_uint64.
  change (2 ^ 64) with 18446744073709551616. lia.
Qed.

(** The size a region gets from an [int] holding the low bits of [x]
    equals [x] in two cases only: [x] fits the non-negative half of the
    [int], or it lies in the top 2^31 values below 2^64, where the sign
    extension gives it back. *)
Lemma size_of_int_exact_iff x :
  C.uint64_t (C.int x) = x <->
  0 <= x < 2 ^ 31 \/ 2 ^ 64 - 2 ^ 31 <= x < 2 ^ 64.
Proof.
  unfold C.uint64_t, C.to_unsigned, C.int, C.to_signed.
  change (2 ^ (32 - 1)) with 2147483648.
  change (2 ^ 31) with 2147483648.
  change (2 ^ 32) with 4294967296.
  change (2 ^ 64) with 18446744073709551616.
  Z.to_euclidean_division_equations. lia.
Qed.

(** Narrowing after a 64-bit wrap keeps the low 32 bits of the exact
    value. *)
Lemma int_of_int64 x : C.int (C.int64_t x) = C.int x.
Proof.
  unfold C.int, C.int64_t, C.to_signed.
  change (2 ^ (32 - 1)) with 2147483648.
  change (2 ^ (64 - 1)) with 9223372036854775808.
  change (2 ^ 32) with 4294967296.
  change (2 ^ 64) with (4294967296 * 4294967296).
  Z.to_euclidean_division_equations. lia.
Qed.

(** The conversion to [int] is the low 32 bits read as signed. *)
Lemma int_low32 x : C.int x = low32_signed x.
Proof.
  unfold low32_signed, C.int, C.to_signed.
  rewrite Z.land_ones by lia.
  change (2 ^ (32 - 1)) with 2147483648.
  change (2 ^ 32) with 4294967296.
  destruct (Z.testbit (x mod 4294967296) 31) eqn:Hbit.
  - apply Z.testbit_true in Hbit; [|lia].
    change (2 ^ 31) with 2147483648 in Hbit.
    Z.to_euclidean_division_equations. lia.
  - apply Z.testbit_false in Hbit; [|lia].
    change (2 ^ 31) with 2147483648 in Hbit.
    Z.to_euclidean_division_equations. lia.
Qed.

Lemma flash_size_low32 kb :
  C.int (C.mul64 kb 1024) = low32_signed (kb * 1024).
Proof. unfold C.mul64. now rewrite int_of_int64, int_low32. Qed.

Lemma flash_size_exact kb :
  0 < kb < 2 ^ 21 -> C.int (C.mul64 kb 1024) = kb * 1024.
Proof.
  intros H. unfold C.mul64. rewrite int_of_int64.
  apply int_id. unfold C.is_int.
  change (2 ^ 21) with 2097152 in H. change (2 ^ 31) with 2147483648. lia.
Qed.

Lemma flash_size_arg_exact kb :
  0 < kb < 2 ^ 21 -> C.uint64_t (C.int (C.mul64 kb 1024)) = kb * 1024.
Proof.
  intros H. unfold C.mul64. rewrite int_of_int64.
  apply size_of_nonneg_int.
  change (2 ^ 21) with 2097152 in H. change (2 ^ 31) with 2147483648. lia.
Qed.

Lemma flash_size_wraps kb :
  2 ^ 21 <= kb -> C.int (C.mul64 kb 1024) <> kb * 1024.
Proof.
  intros H E. pose proof (int_in_range (C.mul64 kb 1024)) as R.
  rewrite E in R. unfold C.is_int in R.
  change (2 ^ 21) with 2097152 in H. change (2 ^ 31) with 2147483648 in R.
  lia.
Qed.

(** Without overflow the clock expression is the exact quotient, and it
    fits the [int] it is stored in. *)
Lemma clock_scale_exact f :
  0 < f -> f * 1000000 <= C.INT64_MAX ->
  clock_scale_expr f = Some (1000000000 / (f * 1000000)) /\
  C.int (1000000000 / (f * 1000000)) = 1000000000 / (f * 1000000).
Proof.
  intros Hpos Hmax. unfold C.INT64_MAX in Hmax.
  change (2 ^ 63) with 9223372036854775808 in Hmax.
  assert (Hin : forall x, 0 <= x <= f * 1000000 -> C.int64_t x = x).
  { intros x Hx. apply int64_id. unfold C.is_int64, C.INT64_MIN, C.INT64_MAX.
    change (2 ^ 63) with 9223372036854775808. lia. }
  unfold clock_scale_expr, C.mul64.
  rewrite (Hin (f * 1000)) by lia.
  replace (f * 1000 * 1000) with (f * 1000000) by lia.
  rewrite (Hin (f * 1000000)) by lia.
  unfold C.div64, NANOSECONDS_PER_SECOND.
  destruct (Z.eqb_spec (f * 1000000) 0) as [E|_]; [lia|].
  change (1000000000 =? C.INT64_MIN) with false. cbn [andb].
  rewrite Z.quot_div_nonneg by lia.
  split; [reflexivity|].
  apply int_id. unfold C.is_int. change (2 ^ 31) with 2147483648.
  assert (0 <= 1000000000 / (f * 1000000)) by (apply Z.div_pos; lia).
  assert (1000000000 / (f * 1000000) <= 1000000000 / 1000000)
    by (apply Z.div_le_compat_l; lia).
  change (1000000000 / 1000000) with 1000 in *. lia.
Qed.

End Conversions.

(* ===================================================================== *)
(** ** Running the assembly routine *)
(* ===================================================================== *)

(** Unfold the routine on a given platform and world, keeping the
    integer conversions folded. *)
Ltac unfold_init :=
  cbv [virt_cortex_m_init bind ret load call_errp emit stop report eval
       write_system_clock_scale final negb
       machine trace system_clock_scale
       init_rom_reply init_ram_reply set_link_reply realize_reply].

(** The same for a run from [boot m]. *)
Ltac unfold_run :=
  cbv [calls published_scale boot virt_cortex_m_init bind ret load call_errp
       emit stop report eval write_system_clock_scale final negb app
       machine trace system_clock_scale
       init_rom_reply init_ram_reply set_link_reply realize_reply].

(** Split on every way the platform can answer. *)
Ltac platform_cases P :=
  destruct P as [[[]|] [[]|] [[]|] [[]|]];
  cbn [init_rom_reply init_ram_reply set_link_reply realize_reply] in *;
  try discriminate; try congruence.

Ltac wf_example :=
  unfold wf_machine, C.is_int64, C.is_uint64, C.INT64_MIN, C.INT64_MAX;
  simpl; lia.

(** Run from [boot m] on every platform, and on both results of the clock
    expression where the run gets that far. *)
Ltac run P :=
  platform_cases P; unfold_run;
  try (destruct (clock_scale_expr _); unfold_run).

Section Run.

Variable P : Platform.

Lemma published_cooperative m :
  cooperative P ->
  published_scale P m = C.int <$> clock_scale_expr (freq_mhz m).
Proof. intros (Hrom & Hram & Hlink & Hreal). run P; reflexivity. Qed.

Lemma flash_size_passed m :
  region_size flash (calls P m)
  = Some (C.uint64_t (C.int (C.mul64 (flash_size_kb m) 1024))).
Proof. run P; reflexivity. Qed.

Lemma flash_base m :
  init_rom_reply P = Returns tt ->
  region_base flash (calls P m) = Some 0.
Proof. intros Hrom. run P; reflexivity. Qed.

Lemma sram_size_passed m :
  init_rom_reply P = Returns tt ->
  region_size sram (calls P m)
  = Some (C.uint64_t (C.int (ram_size (parent_obj m)))).
Proof. intros Hrom. run P; reflexivity. Qed.

Lemma sram_base m :
  init_rom_reply P = Returns tt -> init_ram_reply P = Returns tt ->
  region_base sram (calls P m) = Some 0x20000000.
Proof. intros Hrom Hram. run P; reflexivity. Qed.

Lemma props_when_realized m :
  init_rom_reply P = Returns tt -> init_ram_reply P = Returns tt ->
  set_link_reply P = Returns tt ->
  props_at_realize ∅ (calls P m) =
    Some (<["memory" := PLink system_memory]>
          (<["enable-bitband" := PBit true]>
           (<["cpu-type" := PString (cpu_type (parent_obj m))]>
            (<["num-irq" := PUint32 (C.uint32_t (num_irq m))]> ∅)))).
Proof. intros Hrom Hram Hlink. run P; reflexivity. Qed.

End Run.

(** The same from an arbitrary world [w]. *)
Ltac run_at P w :=
  platform_cases P; destruct w as [m s t]; unfold_init;
  try (destruct (clock_scale_expr _); unfold_init).

(* ===================================================================== *)
(** ** The registered properties *)
(* ===================================================================== *)

Section Properties.

Lemma lookup_flash_kb :
  properties virt_cortex_m_class !! "flash_kb"
  = Some {| prop_type := "int"; prop_get := flash_size_get;
            prop_set := flash_size_set;
            prop_description := Some "Flash size in KB" |}.
Proof. reflexivity. Qed.

Lemma lookup_freq_mhz :
  properties virt_cortex_m_class !! "freq_mhz"
  = Some {| prop_type := "int"; prop_get := freq_mhz_get;
            prop_set := freq_mhz_set;
            prop_description := Some "MCU frequency in MHz" |}.
Proof. reflexivity. Qed.

Lemma lookup_num_irq :
  properties virt_cortex_m_class !! "num_irq"
  = Some {| prop_type := "int"; prop_get := num_irq_get;
            prop_set := num_irq_set;
            prop_description := Some "Number of IRQs" |}.
Proof. reflexivity. Qed.

Lemma set_flash_kb v m :
  object_property_set virt_cortex_m_class "flash_kb" v m
  = Some (set_flash_size_kb v m).
Proof. unfold object_property_set. now rewrite lookup_flash_kb. Qed.

Lemma set_freq v m :
  object_property_set virt_cortex_m_class "freq_mhz" v m
  = Some (set_freq_mhz v m).
Proof. unfold object_property_set. now rewrite lookup_freq_mhz. Qed.

Lemma set_irq v m :
  object_property_set virt_cortex_m_class "num_irq" v m
  = Some (set_num_irq v m).
Proof. unfold object_property_set. now rewrite lookup_num_irq. Qed.

Lemma get_flash_kb m :
  object_property_get virt_cortex_m_class "flash_kb" m
  = Some (flash_size_kb m).
Proof. unfold object_property_get. now rewrite lookup_flash_kb. Qed.

Lemma get_freq m :
  object_property_get virt_cortex_m_class "freq_mhz" m = Some (freq_mhz m).
Proof. unfold object_property_get. now rewrite lookup_freq_mhz. Qed.

Lemma get_irq m :
  object_property_get virt_cortex_m_class "num_irq" m = Some (num_irq m).
Proof. unfold object_property_get. now rewrite lookup_num_irq. Qed.

(** A [get] leaves the object as it was. *)
Lemma get_is_pure m name :
  fst (fst (flash_size_get m (OutputVisitor []) name)) = m /\
  fst (fst (freq_mhz_get m (OutputVisitor []) name)) = m /\
  fst (fst (num_irq_get m (OutputVisitor []) name)) = m.
Proof. now destruct m. Qed.

End Properties.

(* ===================================================================== *)
(** ** Worked runs *)
(* ===================================================================== *)

Lemma fast_machine_scale :
  clock_scale_expr (freq_mhz fast_machine) = Some 15625000 /\
  C.mul64 (C.mul64 (freq_mhz fast_machine) 1000) 1000 = 64 /\
  1000000000 / (freq_mhz fast_machine * 1000000) = 0.
Proof. now vm_compute. Qed.

(** With a frequency of 2^58 MHz the divisor wraps to zero and the run
    ends in the division, after the controller is realized and before
    anything is published. *)
Lemma trapping_machine_run :
  virt_cortex_m_init all_ok (boot trapping_machine)
  = Stopped DivideError
      {| machine := trapping_machine;
         system_clock_scale := None;
         trace :=
           [memory_region_init_rom flash "virt_cortex_m.flash" 1048576;
            memory_region_add_subregion system_memory 0 flash;
            memory_region_init_ram sram "virt_cortex_m.sram" 65536;
            memory_region_add_subregion system_memory 0x20000000 sram;
            qdev_new TYPE_ARMV7M;
            qdev_prop_set_uint32 nvic "num-irq" 64;
            qdev_prop_set_string nvic "cpu-type" "cortex-m3-arm-cpu";
            qdev_prop_set_bit nvic "enable-bitband" true;
            object_property_set_link nvic "memory" system_memory;
            sysbus_realize nvic] |}.
Proof. now vm_compute. Qed.

(** The run of the spec's scenario, call by call. *)
Lemma small_machine_run :
  virt_cortex_m_init all_ok (boot small_machine)
  = Returned tt
      {| machine := small_machine;
         system_clock_scale := Some 40;
         trace :=
           [memory_region_init_rom flash "virt_cortex_m.flash" 65536;
            memory_region_add_subregion system_memory 0 flash;
            memory_region_init_ram sram "virt_cortex_m.sram" 16384;
            memory_region_add_subregion system_memory 0x20000000 sram;
            qdev_new TYPE_ARMV7M;
            qdev_prop_set_uint32 nvic "num-irq" 32;
            qdev_prop_set_string nvic "cpu-type" "cortex-m3-arm-cpu";
            qdev_prop_set_bit nvic "enable-bitband" true;
            object_property_set_link nvic "memory" system_memory;
            sysbus_realize nvic;
            armv7m_load_kernel first_cpu None 65536] |}.
Proof. now vm_compute. Qed.

(* ===================================================================== *)
(** ** The clock scale *)
(* ===================================================================== *)

(** C1, as amended.  On a platform where every call succeeds, for every
    configured freqMhz with 0 < freqMhz <= 9_223_372_036_854 (so that
    freqMhz * 1_000_000 fits the 64-bit signed product the routine
    computes), the published clock scale is
    1_000_000_000 / (freqMhz * 1_000_000) under integer division; in
    particular 50 MHz gives 20 and 1 MHz gives 1000. *)
Theorem clock_scale_published (P : Platform) (m : VirtCortexMMachineState) :
  cooperative P ->
  0 < freq_mhz m <= 9223372036854 ->
  published_scale P m = Some (1000000000 / (freq_mhz m * 1000000)) /\
  (freq_mhz m = 50 -> published_scale P m = Some 20) /\
  (freq_mhz m = 1 -> published_scale P m = Some 1000).
Proof.
  intros HP [Hpos Hmax].
  assert (Hfit : freq_mhz m * 1000000 <= C.INT64_MAX).
  { unfold C.INT64_MAX. change (2 ^ 63) with 9223372036854775808. lia. }
  destruct (clock_scale_exact (freq_mhz m) Hpos Hfit) as [Hexpr Hint].
  assert (Hpub : published_scale P m
                 = Some (1000000000 / (freq_mhz m * 1000000))).
  { rewrite published_cooperative by exact HP.
    rewrite Hexpr. cbn [fmap option_fmap option_map]. now rewrite Hint. }
  split; [exact Hpub|].
  split; intros E; rewrite Hpub, E; reflexivity.
Qed.

Lemma clock_scale_published_witness :
  cooperative all_ok /\
  0 < freq_mhz default_machine <= 9223372036854 /\
  published_scale all_ok default_machine = Some 20.
Proof.
  split; [now repeat split|].
  split; [simpl; lia|].
  apply (clock_scale_published all_ok default_machine).
  - now repeat split.
  - simpl; lia.
  - reflexivity.
Defined.

(** C1, as stated, fails: 76480200929599801 MHz is a positive int64 whose
    product with 1000 * 1000 wraps to 64, so the routine publishes
    1_000_000_000 / 64 = 15625000 where the claim has
    1_000_000_000 / (freqMhz * 1_000_000) = 0. *)
Lemma clock_scale_wraps :
  wf_machine fast_machine /\
  cooperative all_ok /\
  0 < freq_mhz fast_machine /\
  published_scale all_ok fast_machine = Some 15625000 /\
  published_scale all_ok fast_machine
  <> Some (1000000000 / (freq_mhz fast_machine * 1000000)).
Proof.
  split; [wf_example|].
  split; [now repeat split|].
  split; [simpl; lia|].
  assert (E : published_scale all_ok fast_machine = Some 15625000)
    by now vm_compute.
  split; [exact E|].
  rewrite E. destruct fast_machine_scale as (_ & _ & ->). discriminate.
Qed.

(* ===================================================================== *)
(** ** The memory layout *)
(* ===================================================================== *)

(** C2, as amended.  For every configured flashSizeKb with
    0 < flashSizeKb < 2^21 (so that flashSizeKb * 1024 fits the signed
    32-bit [int] holding it), the flash region created by assembly has
    size exactly flashSizeKb * 1024 bytes and is mapped into the global
    address space at base address 0. *)
Theorem flash_region_size_and_base (P : Platform)
    (m : VirtCortexMMachineState) :
  init_rom_reply P = Returns tt ->
  0 < flash_size_kb m < 2 ^ 21 ->
  region_size flash (calls P m) = Some (flash_size_kb m * 1024) /\
  region_base flash (calls P m) = Some 0.
Proof.
  intros Hrom Hkb. split.
  - rewrite flash_size_passed. unfold C.mul64. rewrite int_of_int64.
    rewrite size_of_nonneg_int; [reflexivity|].
    change (2 ^ 21) with 2097152 in Hkb. change (2 ^ 31) with 2147483648.
    lia.
  - now apply flash_base.
Qed.

Lemma flash_region_size_and_base_witness :
  init_rom_reply all_ok = Returns tt /\
  0 < flash_size_kb default_machine < 2 ^ 21 /\
  region_size flash (calls all_ok default_machine) = Some (1024 * 1024) /\
  region_base flash (calls all_ok default_machine) = Some 0.
Proof.
  split; [reflexivity|].
  split; [simpl; lia|].
  apply (flash_region_size_and_base all_ok default_machine).
  - reflexivity.
  - simpl; lia.
Defined.

(** C2, as stated, fails: with flashSizeKb = 4194368 (2^22 + 64) the
    product is 2^32 + 65536 bytes and the region is created with size
    65536. *)
Lemma flash_size_wraps_at_4194368 :
  wf_machine big_flash_machine /\
  init_rom_reply all_ok = Returns tt /\
  0 < flash_size_kb big_flash_machine /\
  flash_size_kb big_flash_machine * 1024 = 4295032832 /\
  region_size flash (calls all_ok big_flash_machine) = Some 65536 /\
  region_size flash (calls all_ok big_flash_machine)
  <> Some (flash_size_kb big_flash_machine * 1024).
Proof.
  split; [wf_example|].
  split; [reflexivity|].
  split; [simpl; lia|].
  split; [reflexivity|].
  assert (E : region_size flash (calls all_ok big_flash_machine) = Some 65536)
    by now vm_compute.
  split; [exact E|].
  rewrite E. simpl. discriminate.
Qed.

(** C4, as amended.  Whatever flash size is configured, the RAM region
    created by assembly is mapped at base address 0x2000_0000, and for
    every requested RAM size below 2^31 (so that it fits the signed 32-bit
    [int] holding it) its size equals the requested ramSizeBytes. *)
Theorem ram_region_base_and_size (P : Platform)
    (m : VirtCortexMMachineState) (kb : Z) :
  init_rom_reply P = Returns tt ->
  init_ram_reply P = Returns tt ->
  region_base sram (calls P (set_flash_size_kb kb m)) = Some 0x20000000 /\
  (0 <= ram_size (parent_obj m) < 2 ^ 31 ->
   region_size sram (calls P (set_flash_size_kb kb m))
   = Some (ram_size (parent_obj m))).
Proof.
  intros Hrom Hram. split.
  - now apply sram_base.
  - intros Hsize. rewrite sram_size_passed by exact Hrom.
    cbn [set_flash_size_kb parent_obj].
    now rewrite size_of_nonneg_int by exact Hsize.
Qed.

Lemma ram_region_base_and_size_witness :
  init_rom_reply all_ok = Returns tt /\
  init_ram_reply all_ok = Returns tt /\
  0 <= ram_size (parent_obj small_machine) < 2 ^ 31 /\
  region_base sram (calls all_ok (set_flash_size_kb 2048 small_machine))
  = Some 0x20000000 /\
  region_size sram (calls all_ok (set_flash_size_kb 2048 small_machine))
  = Some 16384.
Proof.
  split; [reflexivity|].
  split; [reflexivity|].
  split; [simpl; lia|].
  destruct (ram_region_base_and_size all_ok small_machine 2048
              eq_refl eq_refl) as [Hbase Hsize].
  split; [exact Hbase|].
  apply Hsize. simpl; lia.
Defined.

(** C4, as stated, fails: with a requested RAM size of 4294983680 bytes
    (2^32 + 16384) the region is created with size 16384. *)
Lemma ram_size_wraps_at_4294983680 :
  wf_machine big_ram_machine /\
  init_rom_reply all_ok = Returns tt /\
  init_ram_reply all_ok = Returns tt /\
  ram_size (parent_obj big_ram_machine) = 4294983680 /\
  region_base sram (calls all_ok big_ram_machine) = Some 0x20000000 /\
  region_size sram (calls all_ok big_ram_machine) = Some 16384 /\
  region_size sram (calls all_ok big_ram_machine)
  <> Some (ram_size (parent_obj big_ram_machine)).
Proof.
  split; [wf_example|].
  do 3 (split; [reflexivity|]).
  split; [now vm_compute|].
  assert (E : region_size sram (calls all_ok big_ram_machine) = Some 16384)
    by now vm_compute.
  split; [exact E|].
  rewrite E. simpl. discriminate.
Qed.

(** C10, as amended.  The sizes used by assembly are computed in a
    signed 32-bit integer and handed on as unsigned 64-bit sizes: the
    size passed when the flash region is created is the low 32 bits of
    flashSizeKb * 1024, read as a signed 32-bit value and converted to
    the callee's unsigned 64-bit size (a negative value is sign-extended);
    the size passed for the RAM region is obtained from the requested RAM
    size in the same way; and for every flashSizeKb with
    2^21 <= flashSizeKb < 2^54 - 2^21 the flash size passed differs from
    flashSizeKb * 1024. *)
Theorem sizes_are_signed_32_bit (P : Platform) (m : VirtCortexMMachineState) :
  region_size flash (calls P m)
  = Some (C.uint64_t (low32_signed (flash_size_kb m * 1024))) /\
  (init_rom_reply P = Returns tt ->
   region_size sram (calls P m)
   = Some (C.uint64_t (low32_signed (ram_size (parent_obj m))))) /\
  (2 ^ 21 <= flash_size_kb m < 2 ^ 54 - 2 ^ 21 ->
   region_size flash (calls P m) <> Some (flash_size_kb m * 1024)).
Proof.
  split; [|split].
  - rewrite flash_size_passed. now rewrite flash_size_low32.
  - intros Hrom. rewrite sram_size_passed by exact Hrom.
    now rewrite int_low32.
  - intros Hkb. rewrite flash_size_passed.
    unfold C.mul64. rewrite int_of_int64. intros [= E].
    apply size_of_int_exact_iff in E.
    change (2 ^ 21) with 2097152 in Hkb.
    change (2 ^ 54) with 18014398509481984 in Hkb.
    change (2 ^ 31) with 2147483648 in E.
    change (2 ^ 64) with 18446744073709551616 in E.
    lia.
Qed.

Lemma sizes_are_signed_32_bit_witness :
  init_rom_reply all_ok = Returns tt /\
  2 ^ 21 <= flash_size_kb big_flash_machine < 2 ^ 54 - 2 ^ 21 /\
  region_size sram (calls all_ok big_flash_machine)
  = Some (C.uint64_t
            (low32_signed (ram_size (parent_obj big_flash_machine)))) /\
  region_size flash (calls all_ok big_flash_machine)
  <> Some (flash_size_kb big_flash_machine * 1024).
Proof.
  split; [reflexivity|].
  split; [simpl; lia|].
  destruct (sizes_are_signed_32_bit all_ok big_flash_machine)
    as (_ & Hram & Hflash).
  split.
  - apply Hram. reflexivity.
  - apply Hflash. simpl; lia.
Defined.

(** C10, as stated, fails twice.  With flashSizeKb = 2097152 (2^21) the
    low 32 bits of the product read as signed are -2147483648, but the
    region is created with size 18446744071562067968, the sign extension
    of that value to 64 bits.  With flashSizeKb = 18014398509481983
    (2^54 - 1, above 2^21) the product is 2^64 - 1024; it wraps to -1024,
    which sign-extends to 2^64 - 1024 again, so the region is created
    with size exactly flashSizeKb * 1024. *)
Lemma sizes_are_sign_extended :
  wf_machine two_gb_flash_machine /\
  low32_signed (flash_size_kb two_gb_flash_machine * 1024) = -2147483648 /\
  region_size flash (calls all_ok two_gb_flash_machine)
  = Some 18446744071562067968 /\
  region_size flash (calls all_ok two_gb_flash_machine)
  <> Some (low32_signed (flash_size_kb two_gb_flash_machine * 1024)) /\
  wf_machine wide_flash_machine /\
  2 ^ 21 <= flash_size_kb wide_flash_machine /\
  flash_size_kb wide_flash_machine * 1024 = 18446744073709550592 /\
  region_size flash (calls all_ok wide_flash_machine)
  = Some (flash_size_kb wide_flash_machine * 1024).
Proof.
  assert (E : region_size flash (calls all_ok two_gb_flash_machine)
              = Some 18446744071562067968) by now vm_compute.
  assert (L : low32_signed (flash_size_kb two_gb_flash_machine * 1024)
              = -2147483648) by now vm_compute.
  split; [wf_example|].
  split; [exact L|].
  split; [exact E|].
  split; [rewrite E, L; discriminate|].
  split; [wf_example|].
  split; [simpl; lia|].
  split; [reflexivity|].
  now vm_compute.
Qed.

(* ===================================================================== *)
(** ** The interrupt controller *)
(* ===================================================================== *)

(** C7, as amended.  When assembly gets as far as realizing the interrupt
    controller, the controller holds at that moment: a line count equal to
    the configured numIrq converted to an unsigned 32-bit value (numIrq
    itself whenever 0 <= numIrq < 2^32), a CPU variant equal to the
    requested cpuVariant string, bit-band addressing enabled, and a link
    to the global address space. *)
Theorem nvic_configured_before_realize (P : Platform)
    (m : VirtCortexMMachineState) :
  init_rom_reply P = Returns tt ->
  init_ram_reply P = Returns tt ->
  set_link_reply P = Returns tt ->
  nvic_prop "num-irq" (calls P m) = Some (PUint32 (C.uint32_t (num_irq m))) /\
  (C.is_uint32 (num_irq m) ->
   nvic_prop "num-irq" (calls P m) = Some (PUint32 (num_irq m))) /\
  nvic_prop "cpu-type" (calls P m)
  = Some (PString (cpu_type (parent_obj m))) /\
  nvic_prop "enable-bitband" (calls P m) = Some (PBit true) /\
  nvic_prop "memory" (calls P m) = Some (PLink system_memory).
Proof.
  intros Hrom Hram Hlink. unfold nvic_prop.
  rewrite props_when_realized by assumption. cbn [mbind option_bind].
  split; [|split; [intros Hu|split; [|split]]];
    rewrite ?lookup_insert_ne by discriminate;
    rewrite lookup_insert_eq; try reflexivity.
  now rewrite uint32_id.
Qed.

Lemma nvic_configured_before_realize_witness :
  init_rom_reply realize_error = Returns tt /\
  init_ram_reply realize_error = Returns tt /\
  set_link_reply realize_error = Returns tt /\
  C.is_uint32 (num_irq small_machine) /\
  nvic_prop "num-irq" (calls realize_error small_machine)
  = Some (PUint32 32) /\
  nvic_prop "cpu-type" (calls realize_error small_machine)
  = Some (PString "cortex-m3-arm-cpu") /\
  nvic_prop "enable-bitband" (calls realize_error small_machine)
  = Some (PBit true) /\
  nvic_prop "memory" (calls realize_error small_machine)
  = Some (PLink system_memory).
Proof.
  assert (Hu : C.is_uint32 (num_irq small_machine))
    by (unfold C.is_uint32; simpl; lia).
  do 3 (split; [reflexivity|]).
  split; [exact Hu|].
  destruct (nvic_configured_before_realize realize_error small_machine
              eq_refl eq_refl eq_refl) as (_ & Hirq & Hcpu & Hbit & Hmem).
  split; [exact (Hirq Hu)|].
  split; [exact Hcpu|].
  split; [exact Hbit|exact Hmem].
Defined.

(** C7, as stated, fails: with numIrq = 4294967328 (2^32 + 32) the
    controller is configured with 32 lines. *)
Lemma line_count_wraps_at_4294967328 :
  wf_machine many_irq_machine /\
  cooperative all_ok /\
  num_irq many_irq_machine = 4294967328 /\
  nvic_prop "num-irq" (calls all_ok many_irq_machine) = Some (PUint32 32) /\
  nvic_prop "num-irq" (calls all_ok many_irq_machine)
  <> Some (PUint32 (num_irq many_irq_machine)).
Proof.
  split; [wf_example|].
  split; [now repeat split|].
  split; [reflexivity|].
  assert (E : nvic_prop "num-irq" (calls all_ok many_irq_machine)
              = Some (PUint32 32)) by now vm_compute.
  split; [exact E|].
  rewrite E. simpl. discriminate.
Qed.

(** C3.  If realization of the interrupt controller fails (it returns
    false, or it reports an error), assembly stops there:
    [system_clock_scale] keeps the value it had, the calls made contain
    no call of the boot loader, and when the earlier steps succeeded the
    last call made is the realization itself. *)
Theorem realize_failure_stops_assembly (P : Platform) (w : World) :
  realize_reply P <> Returns true ->
  system_clock_scale (final (virt_cortex_m_init P w)) = system_clock_scale w /\
  exists cs : list Call,
    trace (final (virt_cortex_m_init P w)) = trace w ++ cs /\
    Forall (fun c => is_load_kernel c = false) cs /\
    (init_rom_reply P = Returns tt -> init_ram_reply P = Returns tt ->
     set_link_reply P = Returns tt -> last cs = Some (sysbus_realize nvic)).
Proof.
  intros Hreal.
  run_at P w;
    (split; [reflexivity|]);
    (eexists; split; [rewrite <- ?app_assoc; reflexivity|]);
    (split; [cbn [app]; repeat constructor|]);
    intros; try discriminate; reflexivity.
Qed.

Lemma realize_failure_stops_assembly_witness :
  realize_reply realize_false <> Returns true /\
  system_clock_scale
    (final (virt_cortex_m_init realize_false (boot small_machine))) = None /\
  exists cs : list Call,
    trace (final (virt_cortex_m_init realize_false (boot small_machine)))
    = [] ++ cs /\
    Forall (fun c => is_load_kernel c = false) cs /\
    last cs = Some (sysbus_realize nvic).
Proof.
  assert (H : realize_reply realize_false <> Returns true)
    by (simpl; discriminate).
  split; [exact H|].
  destruct (realize_failure_stops_assembly realize_false
              (boot small_machine) H) as (Hclock & cs & Htrace & Hno & Hlast).
  split; [exact Hclock|].
  exists cs. split; [exact Htrace|].
  split; [exact Hno|].
  apply Hlast; reflexivity.
Defined.

(** C9.  Assembly never modifies the three board parameters: however the
    run ends, flashSizeKb, freqMhz and numIrq hold the values they held
    when it began. *)
Theorem init_keeps_parameters (P : Platform) (w : World) :
  flash_size_kb (machine (final (virt_cortex_m_init P w)))
  = flash_size_kb (machine w) /\
  freq_mhz (machine (final (virt_cortex_m_init P w))) = freq_mhz (machine w) /\
  num_irq (machine (final (virt_cortex_m_init P w))) = num_irq (machine w).
Proof. run_at P w; now repeat split. Qed.

(* ===================================================================== *)
(** ** The parameter store *)
(* ===================================================================== *)

(** C5.  On instance creation the three board parameters are
    flashSizeKb = 1024, freqMhz = 50 and numIrq = 64, in the fields and as
    read through the registered properties. *)
Theorem instance_defaults (m : VirtCortexMMachineState) :
  flash_size_kb (virt_cortex_m_instance_init m) = 1024 /\
  freq_mhz (virt_cortex_m_instance_init m) = 50 /\
  num_irq (virt_cortex_m_instance_init m) = 64 /\
  object_property_get virt_cortex_m_class "flash_kb"
    (virt_cortex_m_instance_init m) = Some 1024 /\
  object_property_get virt_cortex_m_class "freq_mhz"
    (virt_cortex_m_instance_init m) = Some 50 /\
  object_property_get virt_cortex_m_class "num_irq"
    (virt_cortex_m_instance_init m) = Some 64.
Proof.
  rewrite get_flash_kb, get_freq, get_irq. now repeat split.
Qed.

(** C6.  For each of the three board parameters (flash_kb, freq_mhz,
    num_irq) and every int64 value v, setting the parameter to v through
    its set accessor succeeds and reading it back through its get
    accessor returns v. *)
Theorem parameter_round_trip (m : VirtCortexMMachineState) (name : string)
    (v : Z) :
  name ∈ board_parameters ->
  C.is_int64 v ->
  exists m' : VirtCortexMMachineState,
    object_property_set virt_cortex_m_class name v m = Some m' /\
    object_property_get virt_cortex_m_class name m' = Some v.
Proof.
  intros Hname _. unfold board_parameters in Hname.
  repeat (apply elem_of_cons in Hname as [-> | Hname]).
  - exists (set_flash_size_kb v m).
    now rewrite set_flash_kb, get_flash_kb.
  - exists (set_freq_mhz v m). now rewrite set_freq, get_freq.
  - exists (set_num_irq v m). now rewrite set_irq, get_irq.
  - now apply elem_of_nil in Hname.
Qed.

Lemma parameter_round_trip_witness :
  "freq_mhz" ∈ board_parameters /\
  C.is_int64 (-7) /\
  exists m' : VirtCortexMMachineState,
    object_property_set virt_cortex_m_class "freq_mhz" (-7) default_machine
    = Some m' /\
    object_property_get virt_cortex_m_class "freq_mhz" m' = Some (-7).
Proof.
  assert (Hname : "freq_mhz" ∈ board_parameters)
    by (unfold board_parameters; apply list_elem_of_further, list_elem_of_here).
  assert (Hv : C.is_int64 (-7))
    by (unfold C.is_int64, C.INT64_MIN, C.INT64_MAX; lia).
  split; [exact Hname|].
  split; [exact Hv|].
  exact (parameter_round_trip default_machine "freq_mhz" (-7) Hname Hv).
Defined.

(* ===================================================================== *)
(** ** The scenario *)
(* ===================================================================== *)

(** C8.  With flashSizeKb = 64, freqMhz = 25, numIrq = 32 and a requested
    RAM size of 16384, on a platform where every call succeeds, assembly
    produces a flash region covering [0, 65536), a RAM region covering
    [0x20000000, 0x20004000), a published clock scale of 40 and an
    interrupt controller configured with 32 lines. *)
Theorem scenario_64_25_32 (P : Platform) (m : VirtCortexMMachineState) :
  cooperative P ->
  flash_size_kb m = 64 -> freq_mhz m = 25 -> num_irq m = 32 ->
  ram_size (parent_obj m) = 16384 ->
  region_range flash (calls P m) = Some (0, 65536) /\
  region_range sram (calls P m) = Some (0x20000000, 0x20004000) /\
  published_scale P m = Some 40 /\
  nvic_prop "num-irq" (calls P m) = Some (PUint32 32).
Proof.
  intros HP Hkb Hmhz Hirq Hram.
  pose proof HP as (Hrom & Hramok & Hlink & Hreal).
  unfold region_range.
  rewrite flash_size_passed, (flash_base P m Hrom).
  rewrite (sram_size_passed P m Hrom), (sram_base P m Hrom Hramok).
  rewrite (published_cooperative P m HP).
  unfold nvic_prop. rewrite (props_when_realized P m Hrom Hramok Hlink).
  cbn [mbind option_bind].
  rewrite !lookup_insert_ne by discriminate. rewrite lookup_insert_eq.
  rewrite Hkb, Hmhz, Hirq, Hram.
  now vm_compute.
Qed.

Lemma scenario_64_25_32_witness :
  cooperative all_ok /\
  flash_size_kb small_machine = 64 /\ freq_mhz small_machine = 25 /\
  num_irq small_machine = 32 /\ ram_size (parent_obj small_machine) = 16384 /\
  region_range flash (calls all_ok small_machine) = Some (0, 65536) /\
  region_range sram (calls all_ok small_machine)
  = Some (0x20000000, 0x20004000) /\
  published_scale all_ok small_machine = Some 40 /\
  nvic_prop "num-irq" (calls all_ok small_machine) = Some (PUint32 32).
Proof.
  assert (HP : cooperative all_ok) by now repeat split.
  split; [exact HP|].
  do 4 (split; [reflexivity|]).
  exact (scenario_64_25_32 all_ok small_machine HP
           eq_refl eq_refl eq_refl eq_refl).
Defined.

(* ===================================================================== *)
(** ** More on the clock expression *)
(* ===================================================================== *)

Section ClockArithmetic.

(** The two wrapping multiplications amount to one. *)
Lemma mul64_twice f :
  C.mul64 (C.mul64 f 1000) 1000 = C.int64_t (f * 1000000).
Proof.
  unfold C.mul64, C.int64_t, C.to_signed.
  change (2 ^ (64 - 1)) with 9223372036854775808.
  change (2 ^ 64) with 18446744073709551616.
  Z.to_euclidean_division_equations. lia.
Qed.

Lemma int64_zero_iff x : C.int64_t x = 0 <-> x mod 2 ^ 64 = 0.
Proof.
  unfold C.int64_t, C.to_signed.
  change (2 ^ (64 - 1)) with 9223372036854775808.
  change (2 ^ 64) with 18446744073709551616.
  Z.to_euclidean_division_equations. lia.
Qed.

Lemma int64_in_range x : C.is_int64 (C.int64_t x).
Proof.
  unfold C.is_int64, C.INT64_MIN, C.INT64_MAX, C.int64_t, C.to_signed.
  change (2 ^ (64 - 1)) with 9223372036854775808.
  change (2 ^ 63) with 9223372036854775808.
  change (2 ^ 64) with 18446744073709551616.
  Z.to_euclidean_division_equations. lia.
Qed.

(** 1000 * 1000 = 2^6 * 15625 with 15625 odd: the product is a multiple
    of 2^64 exactly when [f] is a multiple of 2^58. *)
Lemma million_multiple f :
  (f * 1000000) mod 2 ^ 64 = 0 <-> f mod 2 ^ 58 = 0.
Proof.
  rewrite !Z.mod_divide by lia.
  change (2 ^ 64) with (2 ^ 58 * 64).
  replace (f * 1000000) with (f * 15625 * 64) by lia.
  rewrite Z.mul_divide_cancel_r by lia.
  split.
  - intros H. apply Z.gauss with 15625.
    + now rewrite Z.mul_comm.
    + reflexivity.
  - intros H. now apply Z.divide_mul_l.
Qed.

Lemma clock_scale_none_iff f :
  clock_scale_expr f = None <-> f mod 2 ^ 58 = 0.
Proof.
  unfold clock_scale_expr. rewrite mul64_twice.
  rewrite <- million_multiple, <- int64_zero_iff.
  unfold C.div64, NANOSECONDS_PER_SECOND.
  destruct (Z.eqb_spec (C.int64_t (f * 1000000)) 0) as [E|E].
  - tauto.
  - change (1000000000 =? C.INT64_MIN) with false. cbn [andb].
    split; [discriminate|contradiction].
Qed.

(** What the expression gives when it gives anything. *)
Lemma clock_scale_some f s :
  clock_scale_expr f = Some s ->
  C.int64_t (f * 1000000) <> 0 /\
  s = Z.quot 1000000000 (C.int64_t (f * 1000000)).
Proof.
  unfold clock_scale_expr. rewrite mul64_twice.
  unfold C.div64, NANOSECONDS_PER_SECOND.
  destruct (Z.eqb_spec (C.int64_t (f * 1000000)) 0) as [E|E];
    [discriminate|].
  change (1000000000 =? C.INT64_MIN) with false. cbn [andb].
  intros [= <-]. now split.
Qed.

(** A truncated quotient is no larger than its dividend. *)
Lemma quot_bounded a d : 0 <= a -> d <> 0 -> - a <= Z.quot a d <= a.
Proof.
  intros Ha Hd.
  assert (Hpos : forall e, 0 < e -> 0 <= Z.quot a e <= a).
  { intros e He. rewrite Z.quot_div_nonneg by lia. split.
    - apply Z.div_pos; lia.
    - apply Z.div_le_upper_bound; nia. }
  destruct (Z.lt_trichotomy d 0) as [Hneg|[->|Hp]]; [|contradiction|].
  - replace d with (- - d) by lia. rewrite Z.quot_opp_r by lia.
    specialize (Hpos (- d)). lia.
  - specialize (Hpos d). lia.
Qed.

Lemma clock_scale_fits f s :
  clock_scale_expr f = Some s ->
  - 1000000000 <= s <= 1000000000 /\ C.int s = s.
Proof.
  intros H. apply clock_scale_some in H as [Hd ->].
  pose proof (quot_bounded 1000000000 _ ltac:(lia) Hd) as Hb.
  split; [exact Hb|].
  apply int_id. unfold C.is_int. change (2 ^ 31) with 2147483648. lia.
Qed.

End ClockArithmetic.

Lemma clock_scale_no_overflow f :
  f <> 0 -> C.is_int64 (f * 1000000) ->
  clock_scale_expr f = Some (Z.quot 1000000000 (f * 1000000)).
Proof.
  intros Hf Hin. unfold clock_scale_expr. rewrite mul64_twice.
  rewrite int64_id by exact Hin.
  unfold C.div64, NANOSECONDS_PER_SECOND.
  destruct (Z.eqb_spec (f * 1000000) 0) as [E|_]; [lia|].
  change (1000000000 =? C.INT64_MIN) with false. reflexivity.
Qed.

(** A clock scale is published only on a platform where every call
    succeeds, and it is the value of the clock expression. *)
Lemma published_inv P m s :
  published_scale P m = Some s ->
  cooperative P /\
  exists s', clock_scale_expr (freq_mhz m) = Some s' /\ s = C.int s'.
Proof.
  unfold cooperative. platform_cases P; unfold_run; try discriminate.
  destruct (clock_scale_expr (freq_mhz m)) as [s'|]; unfold_run;
    [|discriminate].
  intros [= <-]. split; [now repeat split|]. now exists s'.
Qed.

(* ===================================================================== *)
(** ** How the run ends *)
(* ===================================================================== *)

(** X1.  Assembly ends in the integer division exactly when every
    platform call succeeds and freq_mhz is a multiple of 2^58 (zero
    included): then, and only then, the divisor freq_mhz * 1000 * 1000
    is zero at 64 bits. *)
Theorem division_error_iff (P : Platform) (m : VirtCortexMMachineState) :
  stop_reason (virt_cortex_m_init P (boot m)) = Some DivideError <->
  cooperative P /\ freq_mhz m mod 2 ^ 58 = 0.
Proof.
  rewrite <- clock_scale_none_iff. unfold cooperative.
  platform_cases P; unfold_run;
    try (split; [discriminate|intros [(? & ? & ? & ?) _]; discriminate]).
  destruct (clock_scale_expr (freq_mhz m)); unfold_run; cbn [stop_reason].
  - split; [discriminate|intros [_ ?]; discriminate].
  - split; [intros _|reflexivity]. now repeat split.
Qed.

(** X2.  Assembly returns to its caller exactly when the two regions and
    the link succeed and either realization returns false, or it returns
    true and freq_mhz is not a multiple of 2^58.  In particular a
    realization that returns false without reporting an error is not
    fatal: the routine just returns. *)
Theorem returns_iff (P : Platform) (m : VirtCortexMMachineState) :
  stop_reason (virt_cortex_m_init P (boot m)) = None <->
  init_rom_reply P = Returns tt /\ init_ram_reply P = Returns tt /\
  set_link_reply P = Returns tt /\
  (realize_reply P = Returns false \/
   realize_reply P = Returns true /\ freq_mhz m mod 2 ^ 58 <> 0).
Proof.
  rewrite <- clock_scale_none_iff.
  platform_cases P; unfold_run;
    try (split; [discriminate
                |intros (? & ? & ? & [?|[? _]]); discriminate]).
  - destruct (clock_scale_expr (freq_mhz m)); unfold_run; cbn [stop_reason].
    + split; [intros _|reflexivity].
      do 3 (split; [reflexivity|]). right. split; [reflexivity|discriminate].
    + split; [discriminate|].
      intros (_ & _ & _ & [?|[_ H]]); [discriminate|now destruct H].
  - cbn [stop_reason]. split; [intros _|reflexivity].
    do 3 (split; [reflexivity|]). now left.
Qed.

(** X3.  An error reported by one of the calls given [error_fatal] (the
    two region creations and the realization) ends the run with exit, an
    error reported by the link, given [error_abort], ends it with abort;
    each happens exactly when that call is the first to fail. *)
Theorem fatal_stops (P : Platform) (m : VirtCortexMMachineState) :
  (stop_reason (virt_cortex_m_init P (boot m)) = Some Exit <->
   init_rom_reply P = Fails \/
   init_rom_reply P = Returns tt /\ init_ram_reply P = Fails \/
   init_rom_reply P = Returns tt /\ init_ram_reply P = Returns tt /\
   set_link_reply P = Returns tt /\ realize_reply P = Fails) /\
  (stop_reason (virt_cortex_m_init P (boot m)) = Some Abort <->
   init_rom_reply P = Returns tt /\ init_ram_reply P = Returns tt /\
   set_link_reply P = Fails).
Proof.
  platform_cases P; unfold_run;
    try (destruct (clock_scale_expr (freq_mhz m)); unfold_run);
    cbn [stop_reason];
    (split; (split; [try discriminate; intros _|try reflexivity])); 
    try (intros [?|[(? & ?)|(? & ? & ? & ?)]]; discriminate);
    try (intros (? & ? & ?); discriminate);
    auto 10.
Qed.

(* ===================================================================== *)
(** ** More on the published clock scale *)
(* ===================================================================== *)

(** X4.  On a platform where every call succeeds and for a frequency in
    the range without overflow, the published clock scale is 0 exactly
    when freq_mhz exceeds 1000: above 1 GHz the scale is truncated to
    zero, up to 1 GHz it is at least 1. *)
Theorem scale_zero_iff (P : Platform) (m : VirtCortexMMachineState) :
  cooperative P ->
  0 < freq_mhz m <= 9223372036854 ->
  (published_scale P m = Some 0 <-> 1000 < freq_mhz m).
Proof.
  intros HP [Hpos Hmax].
  assert (Hfit : freq_mhz m * 1000000 <= C.INT64_MAX).
  { unfold C.INT64_MAX. change (2 ^ 63) with 9223372036854775808. lia. }
  destruct (clock_scale_exact (freq_mhz m) Hpos Hfit) as [Hexpr Hint].
  rewrite published_cooperative by exact HP.
  rewrite Hexpr. cbn [fmap option_fmap option_map]. rewrite Hint.
  split.
  - intros [= H]. apply Z.div_small_iff in H; lia.
  - intros H. f_equal. apply Z.div_small. lia.
Qed.

Lemma scale_zero_iff_witness :
  cooperative all_ok /\
  0 < freq_mhz (example_machine 1024 1001 64 65536) <= 9223372036854 /\
  (published_scale all_ok (example_machine 1024 1001 64 65536) = Some 0 <->
   1000 < freq_mhz (example_machine 1024 1001 64 65536)).
Proof.
  assert (HP : cooperative all_ok) by now repeat split.
  split; [exact HP|].
  split; [simpl; lia|].
  apply (scale_zero_iff all_ok (example_machine 1024 1001 64 65536) HP).
  simpl; lia.
Defined.

(** X5.  A negative frequency is accepted: for
    -9_223_372_036_854 <= freq_mhz < 0 on a platform where every call
    succeeds, the division truncates towards zero and the published
    clock scale is -(1_000_000_000 / (-freq_mhz * 1_000_000)), a value
    that is never positive. *)
Theorem negative_frequency_scale (P : Platform)
    (m : VirtCortexMMachineState) :
  cooperative P ->
  -9223372036854 <= freq_mhz m < 0 ->
  published_scale P m
  = Some (- (1000000000 / (- freq_mhz m * 1000000))) /\
  - (1000000000 / (- freq_mhz m * 1000000)) <= 0.
Proof.
  intros HP [Hmin Hneg].
  assert (Hin : C.is_int64 (freq_mhz m * 1000000)).
  { unfold C.is_int64, C.INT64_MIN, C.INT64_MAX.
    change (2 ^ 63) with 9223372036854775808. lia. }
  pose proof (clock_scale_no_overflow (freq_mhz m) ltac:(lia) Hin) as Hexpr.
  destruct (clock_scale_fits _ _ Hexpr) as [_ Hint].
  assert (Hq : Z.quot 1000000000 (freq_mhz m * 1000000)
               = - (1000000000 / (- freq_mhz m * 1000000))).
  { replace (freq_mhz m * 1000000) with (- (- freq_mhz m * 1000000)) by lia.
    rewrite Z.quot_opp_r by lia.
    now rewrite Z.quot_div_nonneg by lia. }
  split.
  - rewrite published_cooperative by exact HP.
    rewrite Hexpr. cbn [fmap option_fmap option_map].
    now rewrite Hint, Hq.
  - assert (0 <= 1000000000 / (- freq_mhz m * 1000000))
      by (apply Z.div_pos; lia).
    lia.
Qed.

Lemma negative_frequency_scale_witness :
  cooperative all_ok /\
  -9223372036854 <= freq_mhz (example_machine 1024 (-50) 64 65536) < 0 /\
  published_scale all_ok (example_machine 1024 (-50) 64 65536) = Some (-20).
Proof.
  assert (HP : cooperative all_ok) by now repeat split.
  split; [exact HP|].
  split; [simpl; lia|].
  apply (negative_frequency_scale all_ok
           (example_machine 1024 (-50) 64 65536) HP).
  simpl; lia.
Defined.

(** X6.  Whatever the frequency, overflow included, a published clock
    scale lies between -1_000_000_000 and 1_000_000_000: the narrowing
    of the 64-bit quotient to the [int] [system_clock_scale] never loses
    anything. *)
Theorem published_scale_bounded (P : Platform)
    (m : VirtCortexMMachineState) (s : Z) :
  published_scale P m = Some s ->
  - 1000000000 <= s <= 1000000000 /\
  clock_scale_expr (freq_mhz m) = Some s.
Proof.
  intros H. apply published_inv in H as (_ & s' & Hexpr & ->).
  destruct (clock_scale_fits _ _ Hexpr) as [Hb Hint].
  rewrite Hint. now split.
Qed.

Lemma published_scale_bounded_witness :
  published_scale all_ok fast_machine = Some 15625000 /\
  - 1000000000 <= 15625000 <= 1000000000 /\
  clock_scale_expr (freq_mhz fast_machine) = Some 15625000.
Proof.
  assert (H : published_scale all_ok fast_machine = Some 15625000)
    by now vm_compute.
  split; [exact H|].
  exact (published_scale_bounded all_ok fast_machine 15625000 H).
Defined.

(** X7.  The clock scale is published exactly when the boot loader is
    invoked, and both happen exactly when every platform call succeeds
    and freq_mhz is not a multiple of 2^58. *)
Theorem published_iff_loaded (P : Platform) (m : VirtCortexMMachineState) :
  (is_Some (published_scale P m) <->
   cooperative P /\ freq_mhz m mod 2 ^ 58 <> 0) /\
  (existsb is_load_kernel (calls P m) = true <->
   cooperative P /\ freq_mhz m mod 2 ^ 58 <> 0).
Proof.
  rewrite <- clock_scale_none_iff. unfold cooperative.
  platform_cases P; unfold_run;
    try (split; (split; [try discriminate; intros [? ?]; discriminate
                        |intros [(? & ? & ? & ?) _]; discriminate])).
  destruct (clock_scale_expr (freq_mhz m)); unfold_run; cbn [existsb
    is_load_kernel orb].
  - split; (split; [intros _|intros _; eauto]);
      (split; [now repeat split|discriminate]).
  - split; (split; [try discriminate; intros [? ?]; discriminate
                   |intros [_ H]; now destruct H]).
Qed.

(* ===================================================================== *)
(** ** The shape of the run *)
(* ===================================================================== *)

(** Membership in an explicit list of calls, case by case. *)
Ltac member_cases H :=
  repeat (apply elem_of_cons in H as [H|H]; [try discriminate H|]);
  try (now apply elem_of_nil in H).

(** X8.  When the boot loader is invoked it is the last call of the run
    and it gets the machine's kernel file name.  The size it gets is the
    [int] the flash region was created from: the region's size is that
    value converted to unsigned 64 bits, the same value whenever it is
    not negative. *)
Theorem loader_arguments (P : Platform) (m : VirtCortexMMachineState)
    (cpu : ARMCPU) (kernel : option string) (size : Z) :
  armv7m_load_kernel cpu kernel size ∈ calls P m ->
  kernel = kernel_filename (parent_obj m) /\
  C.is_int size /\
  region_size flash (calls P m) = Some (C.uint64_t size) /\
  (0 <= size -> region_size flash (calls P m) = Some size) /\
  last (calls P m) = Some (armv7m_load_kernel cpu kernel size).
Proof.
  destruct cpu.
  run P; intros H; member_cases H;
    injection H as -> ->.
  pose proof (int_in_range (C.mul64 (flash_size_kb m) 1024)) as R.
  split; [reflexivity|]. split; [exact R|]. split; [reflexivity|].
  split; [|reflexivity].
  intros Hpos. simpl. f_equal. apply uint64_id.
  unfold C.is_int in R. unfold C.is_uint64.
  change (2 ^ 31) with 2147483648 in R.
  change (2 ^ 64) with 18446744073709551616. lia.
Qed.

Lemma loader_arguments_witness :
  armv7m_load_kernel first_cpu None 65536 ∈ calls all_ok small_machine /\
  None = kernel_filename (parent_obj small_machine) /\
  C.is_int 65536 /\
  region_size flash (calls all_ok small_machine) = Some (C.uint64_t 65536) /\
  (0 <= 65536 -> region_size flash (calls all_ok small_machine) = Some 65536) /\
  last (calls all_ok small_machine)
  = Some (armv7m_load_kernel first_cpu None 65536).
Proof.
  assert (H : armv7m_load_kernel first_cpu None 65536
              ∈ calls all_ok small_machine).
  { vm_compute. do 10 apply list_elem_of_further. apply list_elem_of_here. }
  split; [exact H|].
  exact (loader_arguments all_ok small_machine first_cpu None 65536 H).
Defined.

(** X9.  A failure only cuts the run short: on any platform the calls
    made are a prefix of the calls made on the platform where every call
    succeeds. *)
Theorem calls_prefix (P : Platform) (m : VirtCortexMMachineState) :
  calls P m `prefix_of` calls all_ok m.
Proof.
  unfold all_ok.
  platform_cases P; unfold_run;
    destruct (clock_scale_expr (freq_mhz m)); unfold_run;
    repeat apply prefix_cons; apply prefix_nil.
Qed.

(** X10.  The run does not depend on what happened before it: from any
    world it appends to the trace the calls it makes from a fresh one,
    ends the same way, and leaves in [system_clock_scale] the value it
    publishes, or the old value when it publishes none. *)
Theorem run_is_local (P : Platform) (w : World) :
  trace (final (virt_cortex_m_init P w)) = trace w ++ calls P (machine w) /\
  system_clock_scale (final (virt_cortex_m_init P w))
  = from_option Some (system_clock_scale w) (published_scale P (machine w)) /\
  stop_reason (virt_cortex_m_init P w)
  = stop_reason (virt_cortex_m_init P (boot (machine w))).
Proof.
  unfold calls, published_scale, boot.
  run_at P w; cbn [stop_reason from_option];
    (split; [rewrite <- ?app_assoc; reflexivity|now split]).
Qed.

(* ===================================================================== *)
(** ** What a failed run leaves behind *)
(* ===================================================================== *)

(** X11.  When the creation of the flash region fails nothing else is
    attempted: no region is mapped, the RAM region is not created and no
    device is instantiated. *)
Theorem flash_failure_maps_nothing (P : Platform)
    (m : VirtCortexMMachineState) :
  init_rom_reply P = Fails ->
  existsb is_add_subregion (calls P m) = false /\
  region_size sram (calls P m) = None /\
  existsb is_qdev_new (calls P m) = false /\
  length (calls P m) = 1%nat.
Proof. intros Hrom. run P; now repeat split. Qed.

Lemma flash_failure_maps_nothing_witness :
  init_rom_reply rom_fails = Fails /\
  existsb is_add_subregion (calls rom_fails default_machine) = false /\
  region_size sram (calls rom_fails default_machine) = None /\
  existsb is_qdev_new (calls rom_fails default_machine) = false /\
  length (calls rom_fails default_machine) = 1%nat.
Proof.
  split; [reflexivity|].
  exact (flash_failure_maps_nothing rom_fails default_machine eq_refl).
Defined.

(** X12.  When the creation of the RAM region fails the flash region is
    already mapped at 0, the RAM region is not mapped, and no device is
    instantiated. *)
Theorem ram_failure_leaves_flash (P : Platform)
    (m : VirtCortexMMachineState) :
  init_rom_reply P = Returns tt ->
  init_ram_reply P = Fails ->
  region_base flash (calls P m) = Some 0 /\
  region_base sram (calls P m) = None /\
  existsb is_qdev_new (calls P m) = false.
Proof. intros Hrom Hram. run P; now repeat split. Qed.

Lemma ram_failure_leaves_flash_witness :
  init_rom_reply ram_fails = Returns tt /\
  init_ram_reply ram_fails = Fails /\
  region_base flash (calls ram_fails default_machine) = Some 0 /\
  region_base sram (calls ram_fails default_machine) = None /\
  existsb is_qdev_new (calls ram_fails default_machine) = false.
Proof.
  do 2 (split; [reflexivity|]).
  exact (ram_failure_leaves_flash ram_fails default_machine eq_refl eq_refl).
Defined.

(** X13.  When linking the controller to the address space fails both
    regions are mapped and the device is instantiated, but it is never
    realized, no clock scale is published and the boot loader is not
    invoked. *)
Theorem link_failure_never_realizes (P : Platform)
    (m : VirtCortexMMachineState) :
  init_rom_reply P = Returns tt ->
  init_ram_reply P = Returns tt ->
  set_link_reply P = Fails ->
  region_base flash (calls P m) = Some 0 /\
  region_base sram (calls P m) = Some 0x20000000 /\
  existsb is_qdev_new (calls P m) = true /\
  existsb is_realize (calls P m) = false /\
  published_scale P m = None /\
  existsb is_load_kernel (calls P m) = false.
Proof. intros Hrom Hram Hlink. run P; now repeat split. Qed.

Lemma link_failure_never_realizes_witness :
  init_rom_reply link_fails = Returns tt /\
  init_ram_reply link_fails = Returns tt /\
  set_link_reply link_fails = Fails /\
  region_base flash (calls link_fails default_machine) = Some 0 /\
  region_base sram (calls link_fails default_machine) = Some 0x20000000 /\
  existsb is_qdev_new (calls link_fails default_machine) = true /\
  existsb is_realize (calls link_fails default_machine) = false /\
  published_scale link_fails default_machine = None /\
  existsb is_load_kernel (calls link_fails default_machine) = false.
Proof.
  do 3 (split; [reflexivity|]).
  exact (link_failure_never_realizes link_fails default_machine
           eq_refl eq_refl eq_refl).
Defined.

(* ===================================================================== *)
(** ** More on the memory layout *)
(* ===================================================================== *)

(** X14.  The routine maps both regions without comparing them: for
    0 < flash_size_kb < 2^21 and 0 < ram_size < 2^31 the flash region
    covers [0, flash_size_kb * 1024), the RAM region
    [0x20000000, 0x20000000 + ram_size), and the two overlap exactly
    when flash_size_kb exceeds 524288 (512 MB of flash). *)
Theorem regions_overlap_iff (P : Platform) (m : VirtCortexMMachineState) :
  init_rom_reply P = Returns tt ->
  init_ram_reply P = Returns tt ->
  0 < flash_size_kb m < 2 ^ 21 ->
  0 < ram_size (parent_obj m) < 2 ^ 31 ->
  region_range flash (calls P m) = Some (0, flash_size_kb m * 1024) /\
  region_range sram (calls P m)
  = Some (0x20000000, 0x20000000 + ram_size (parent_obj m)) /\
  (ranges_overlap (0, flash_size_kb m * 1024)
     (0x20000000, 0x20000000 + ram_size (parent_obj m)) = true
   <-> 524288 < flash_size_kb m).
Proof.
  intros Hrom Hram Hkb Hsize. unfold region_range.
  rewrite flash_size_passed, (flash_base P m Hrom).
  rewrite (sram_size_passed P m Hrom), (sram_base P m Hrom Hram).
  rewrite flash_size_arg_exact by exact Hkb.
  rewrite size_of_nonneg_int by lia.
  cbn [mbind option_bind]. split; [reflexivity|]. split; [reflexivity|].
  unfold ranges_overlap. cbn [fst snd].
  rewrite andb_true_iff, !Z.ltb_lt. lia.
Qed.

Lemma regions_overlap_iff_witness :
  init_rom_reply all_ok = Returns tt /\
  init_ram_reply all_ok = Returns tt /\
  0 < flash_size_kb (example_machine 1048576 50 64 65536) < 2 ^ 21 /\
  0 < ram_size (parent_obj (example_machine 1048576 50 64 65536)) < 2 ^ 31 /\
  region_range flash (calls all_ok (example_machine 1048576 50 64 65536))
  = Some (0, 0x40000000) /\
  region_range sram (calls all_ok (example_machine 1048576 50 64 65536))
  = Some (0x20000000, 0x20010000) /\
  ranges_overlap (0, 0x40000000) (0x20000000, 0x20010000) = true.
Proof.
  do 2 (split; [reflexivity|]).
  assert (Hkb : 0 < flash_size_kb (example_machine 1048576 50 64 65536)
                < 2 ^ 21) by (simpl; lia).
  assert (Hram : 0 < ram_size (parent_obj
                       (example_machine 1048576 50 64 65536)) < 2 ^ 31)
    by (simpl; lia).
  split; [exact Hkb|]. split; [exact Hram|].
  destruct (regions_overlap_iff all_ok (example_machine 1048576 50 64 65536)
              eq_refl eq_refl Hkb Hram) as (Hf & Hs & _).
  split; [exact Hf|]. split; [exact Hs|]. reflexivity.
Defined.

(** X15.  The size the flash region is created with equals
    flash_size_kb * 1024 exactly when 0 <= flash_size_kb < 2^21 or
    2^54 - 2^21 <= flash_size_kb < 2^54 (where the sign extension gives
    the wrapped product back); it never does for a negative
    flash_size_kb. *)
Theorem flash_size_exact_iff (P : Platform) (m : VirtCortexMMachineState) :
  region_size flash (calls P m) = Some (flash_size_kb m * 1024) <->
  0 <= flash_size_kb m < 2 ^ 21 \/
  2 ^ 54 - 2 ^ 21 <= flash_size_kb m < 2 ^ 54.
Proof.
  rewrite flash_size_passed. unfold C.mul64. rewrite int_of_int64.
  pose proof (size_of_int_exact_iff (flash_size_kb m * 1024)) as H.
  change (2 ^ 31) with 2147483648 in H.
  change (2 ^ 64) with 18446744073709551616 in H.
  change (2 ^ 21) with 2097152. change (2 ^ 54) with 18014398509481984.
  split.
  - intros [= E]. apply H in E. lia.
  - intros Hkb. f_equal. apply H. lia.
Qed.

(** X16.  Once the flash region has been created, the size the RAM
    region is created with equals the requested ram_size exactly when
    0 <= ram_size < 2^31 or 2^64 - 2^31 <= ram_size < 2^64. *)
Theorem ram_size_exact_iff (P : Platform) (m : VirtCortexMMachineState) :
  init_rom_reply P = Returns tt ->
  (region_size sram (calls P m) = Some (ram_size (parent_obj m)) <->
   0 <= ram_size (parent_obj m) < 2 ^ 31 \/
   2 ^ 64 - 2 ^ 31 <= ram_size (parent_obj m) < 2 ^ 64).
Proof.
  intros Hrom. rewrite sram_size_passed by exact Hrom.
  rewrite <- size_of_int_exact_iff. split.
  - now intros [= E].
  - now intros ->.
Qed.

Lemma ram_size_exact_iff_witness :
  init_rom_reply all_ok = Returns tt /\
  (region_size sram (calls all_ok big_ram_machine)
   = Some (ram_size (parent_obj big_ram_machine)) <->
   0 <= ram_size (parent_obj big_ram_machine) < 2 ^ 31 \/
   2 ^ 64 - 2 ^ 31 <= ram_size (parent_obj big_ram_machine) < 2 ^ 64).
Proof.
  split; [reflexivity|].
  exact (ram_size_exact_iff all_ok big_ram_machine eq_refl).
Defined.

(** X17.  A negative num_irq reaches the controller as a large line
    count: for -2^32 <= num_irq < 0 the controller is configured with
    num_irq + 2^32 lines. *)
Theorem negative_line_count (P : Platform) (m : VirtCortexMMachineState) :
  init_rom_reply P = Returns tt ->
  init_ram_reply P = Returns tt ->
  set_link_reply P = Returns tt ->
  - 2 ^ 32 <= num_irq m < 0 ->
  nvic_prop "num-irq" (calls P m) = Some (PUint32 (num_irq m + 2 ^ 32)).
Proof.
  intros Hrom Hram Hlink Hirq. unfold nvic_prop.
  rewrite props_when_realized by assumption. cbn [mbind option_bind].
  rewrite !lookup_insert_ne by discriminate. rewrite lookup_insert_eq.
  do 2 f_equal. unfold C.uint32_t, C.to_unsigned.
  change (2 ^ 32) with 4294967296 in *.
  Z.to_euclidean_division_equations. lia.
Qed.

Lemma negative_line_count_witness :
  init_rom_reply all_ok = Returns tt /\
  init_ram_reply all_ok = Returns tt /\
  set_link_reply all_ok = Returns tt /\
  - 2 ^ 32 <= num_irq (example_machine 1024 50 (-1) 65536) < 0 /\
  nvic_prop "num-irq" (calls all_ok (example_machine 1024 50 (-1) 65536))
  = Some (PUint32 4294967295).
Proof.
  do 3 (split; [reflexivity|]).
  split; [simpl; lia|].
  apply (negative_line_count all_ok (example_machine 1024 50 (-1) 65536)
           eq_refl eq_refl eq_refl).
  simpl; lia.
Defined.

(* ===================================================================== *)
(** ** More on the parameter store *)
(* ===================================================================== *)

Section ClassProperties.

Variable oc : MachineClass.

(** Class initialisation touches no property other than the three it
    registers. *)
Lemma class_init_other name :
  name ∉ board_parameters ->
  properties (virt_cortex_m_class_init oc) !! name = properties oc !! name.
Proof.
  unfold board_parameters. rewrite !not_elem_of_cons.
  intros (H1 & H2 & H3 & _).
  unfold virt_cortex_m_class_init, object_class_property_set_description,
    object_class_property_add, with_properties. cbn [properties].
  repeat (rewrite lookup_alter_ne by congruence;
          rewrite lookup_insert_ne by congruence).
  reflexivity.
Qed.

Lemma class_init_flash_kb :
  properties (virt_cortex_m_class_init oc) !! "flash_kb"
  = Some {| prop_type := "int"; prop_get := flash_size_get;
            prop_set := flash_size_set;
            prop_description := Some "Flash size in KB" |}.
Proof.
  unfold virt_cortex_m_class_init, object_class_property_set_description,
    object_class_property_add, with_properties. cbn [properties].
  repeat (rewrite lookup_alter_ne by discriminate;
          rewrite lookup_insert_ne by discriminate).
  now rewrite lookup_alter_eq, lookup_insert_eq.
Qed.

Lemma class_init_freq_mhz :
  properties (virt_cortex_m_class_init oc) !! "freq_mhz"
  = Some {| prop_type := "int"; prop_get := freq_mhz_get;
            prop_set := freq_mhz_set;
            prop_description := Some "MCU frequency in MHz" |}.
Proof.
  unfold virt_cortex_m_class_init, object_class_property_set_description,
    object_class_property_add, with_properties. cbn [properties].
  rewrite lookup_alter_ne, lookup_insert_ne by discriminate.
  now rewrite lookup_alter_eq, lookup_insert_eq.
Qed.

Lemma class_init_num_irq :
  properties (virt_cortex_m_class_init oc) !! "num_irq"
  = Some {| prop_type := "int"; prop_get := num_irq_get;
            prop_set := num_irq_set;
            prop_description := Some "Number of IRQs" |}.
Proof.
  unfold virt_cortex_m_class_init, object_class_property_set_description,
    object_class_property_add, with_properties. cbn [properties].
  now rewrite lookup_alter_eq, lookup_insert_eq.
Qed.

End ClassProperties.

(** Split a membership in [board_parameters] into its three cases. *)
Ltac parameter_cases H :=
  unfold board_parameters in H;
  repeat (apply elem_of_cons in H as [-> | H]);
  [ | | | now apply elem_of_nil in H].

(** X18.  Class initialisation registers the three parameters, each of
    type "int" and with a description, on top of whatever properties the
    class already has (none of them under one of the three names), and
    leaves every other property as it was. *)
Theorem class_init_registers (oc : MachineClass) (name : string) :
  (forall n, n ∈ board_parameters -> properties oc !! n = None) ->
  (name ∉ board_parameters ->
   properties (virt_cortex_m_class_init oc) !! name = properties oc !! name) /\
  (name ∈ board_parameters ->
   exists p, properties (virt_cortex_m_class_init oc) !! name = Some p /\
             prop_type p = "int" /\ is_Some (prop_description p)).
Proof.
  intros _. split; [apply class_init_other|].
  intros H. parameter_cases H.
  - rewrite class_init_flash_kb. eexists. split; [reflexivity|]. now eauto.
  - rewrite class_init_freq_mhz. eexists. split; [reflexivity|]. now eauto.
  - rewrite class_init_num_irq. eexists. split; [reflexivity|]. now eauto.
Qed.

Lemma class_init_registers_witness :
  (forall n, n ∈ board_parameters -> properties empty_class !! n = None) /\
  "num_irq" ∈ board_parameters /\
  exists p, properties (virt_cortex_m_class_init empty_class) !! "num_irq"
            = Some p /\
            prop_type p = "int" /\ is_Some (prop_description p).
Proof.
  assert (H0 : forall n, n ∈ board_parameters ->
                         properties empty_class !! n = None)
    by (intros n _; apply lookup_empty).
  assert (Hin : "num_irq" ∈ board_parameters)
    by (unfold board_parameters; do 2 apply list_elem_of_further;
        apply list_elem_of_here).
  split; [exact H0|]. split; [exact Hin|].
  destruct (class_init_registers empty_class "num_irq" H0) as [_ H].
  exact (H Hin).
Defined.

(** X19.  Setting one parameter leaves the other two parameters and the
    fields of the parent object as they were. *)
Theorem set_leaves_the_rest (m m' : VirtCortexMMachineState)
    (changed other : string) (v : Z) :
  changed ∈ board_parameters -> other ∈ board_parameters ->
  changed <> other ->
  object_property_set virt_cortex_m_class changed v m = Some m' ->
  object_property_get virt_cortex_m_class other m'
  = object_property_get virt_cortex_m_class other m /\
  parent_obj m' = parent_obj m.
Proof.
  intros Hc Ho Hne. parameter_cases Hc; parameter_cases Ho;
    try contradiction;
    rewrite ?set_flash_kb, ?set_freq, ?set_irq; intros [= <-];
    rewrite ?get_flash_kb, ?get_freq, ?get_irq; now split.
Qed.

Lemma set_leaves_the_rest_witness :
  "freq_mhz" ∈ board_parameters /\ "num_irq" ∈ board_parameters /\
  "freq_mhz" <> "num_irq" /\
  object_property_set virt_cortex_m_class "freq_mhz" 25 default_machine
  = Some (set_freq_mhz 25 default_machine) /\
  object_property_get virt_cortex_m_class "num_irq"
    (set_freq_mhz 25 default_machine)
  = object_property_get virt_cortex_m_class "num_irq" default_machine /\
  parent_obj (set_freq_mhz 25 default_machine) = parent_obj default_machine.
Proof.
  assert (H1 : "freq_mhz" ∈ board_parameters)
    by (unfold board_parameters; apply list_elem_of_further,
          list_elem_of_here).
  assert (H2 : "num_irq" ∈ board_parameters)
    by (unfold board_parameters; do 2 apply list_elem_of_further;
        apply list_elem_of_here).
  assert (H3 : "freq_mhz" <> "num_irq") by discriminate.
  assert (H4 : object_property_set virt_cortex_m_class "freq_mhz" 25
                 default_machine = Some (set_freq_mhz 25 default_machine))
    by reflexivity.
  split; [exact H1|]. split; [exact H2|]. split; [exact H3|].
  split; [exact H4|].
  exact (set_leaves_the_rest default_machine (set_freq_mhz 25 default_machine)
           "freq_mhz" "num_irq" 25 H1 H2 H3 H4).
Defined.

(** X20.  Two different parameters can be set in either order with the
    same result, and when one parameter is set twice the later value
    wins. *)
Theorem settings_commute (m : VirtCortexMMachineState)
    (n1 n2 : string) (v1 v2 : Z) :
  n1 ∈ board_parameters -> n2 ∈ board_parameters ->
  (n1 <> n2 ->
   object_property_set virt_cortex_m_class n1 v1 m
     ≫= object_property_set virt_cortex_m_class n2 v2
   = object_property_set virt_cortex_m_class n2 v2 m
       ≫= object_property_set virt_cortex_m_class n1 v1) /\
  object_property_set virt_cortex_m_class n1 v1 m
    ≫= object_property_set virt_cortex_m_class n1 v2
  = object_property_set virt_cortex_m_class n1 v2 m.
Proof.
  intros H1 H2. split.
  - intros Hne.
    parameter_cases H1; parameter_cases H2; try contradiction;
      rewrite ?set_flash_kb, ?set_freq, ?set_irq;
      cbn [mbind option_bind];
      now rewrite ?set_flash_kb, ?set_freq, ?set_irq.
  - parameter_cases H1; rewrite ?set_flash_kb, ?set_freq, ?set_irq;
      cbn [mbind option_bind];
      now rewrite ?set_flash_kb, ?set_freq, ?set_irq.
Qed.

Lemma settings_commute_witness :
  "flash_kb" ∈ board_parameters /\ "num_irq" ∈ board_parameters /\
  "flash_kb" <> "num_irq" /\
  object_property_set virt_cortex_m_class "flash_kb" 64 default_machine
    ≫= object_property_set virt_cortex_m_class "num_irq" 32
  = object_property_set virt_cortex_m_class "num_irq" 32 default_machine
      ≫= object_property_set virt_cortex_m_class "flash_kb" 64 /\
  object_property_set virt_cortex_m_class "flash_kb" 64 default_machine
    ≫= object_property_set virt_cortex_m_class "flash_kb" 128
  = object_property_set virt_cortex_m_class "flash_kb" 128 default_machine.
Proof.
  assert (H1 : "flash_kb" ∈ board_parameters)
    by (unfold board_parameters; apply list_elem_of_here).
  assert (H2 : "num_irq" ∈ board_parameters)
    by (unfold board_parameters; do 2 apply list_elem_of_further;
        apply list_elem_of_here).
  assert (H3 : "flash_kb" <> "num_irq") by discriminate.
  split; [exact H1|]. split; [exact H2|]. split; [exact H3|].
  destruct (settings_commute default_machine "flash_kb" "num_irq" 64 128
              H1 H2) as [Hc Hl].
  split; [|exact Hl].
  destruct (settings_commute default_machine "flash_kb" "num_irq" 64 32
              H1 H2) as [Hc' _].
  exact (Hc' H3).
Defined.

(* ===================================================================== *)
(** ** From instance creation to assembly *)
(* ===================================================================== *)

(** X21.  The defaults are safe: an instance left as
    [virt_cortex_m_instance_init] made it, with any requested RAM size
    below 2^31, assembles to the end on a platform where every call
    succeeds: 1 MB of flash at 0, the RAM at 0x20000000, a clock scale of
    20, 64 interrupt lines, and the boot loader invoked last with the
    kernel file name and the flash size. *)
Theorem defaults_assemble (P : Platform) (m : VirtCortexMMachineState) :
  cooperative P ->
  0 <= ram_size (parent_obj m) < 2 ^ 31 ->
  stop_reason (virt_cortex_m_init P (boot (virt_cortex_m_instance_init m)))
  = None /\
  region_range flash (calls P (virt_cortex_m_instance_init m))
  = Some (0, 1048576) /\
  region_range sram (calls P (virt_cortex_m_instance_init m))
  = Some (0x20000000, 0x20000000 + ram_size (parent_obj m)) /\
  published_scale P (virt_cortex_m_instance_init m) = Some 20 /\
  nvic_prop "num-irq" (calls P (virt_cortex_m_instance_init m))
  = Some (PUint32 64) /\
  last (calls P (virt_cortex_m_instance_init m))
  = Some (armv7m_load_kernel first_cpu (kernel_filename (parent_obj m))
            1048576).
Proof.
  intros (Hrom & Hram & Hlink & Hreal) Hsize.
  assert (Hint : C.uint64_t (C.int (ram_size (parent_obj m)))
                 = ram_size (parent_obj m))
    by (apply size_of_nonneg_int; exact Hsize).
  unfold region_range, nvic_prop.
  platform_cases P. unfold virt_cortex_m_instance_init. unfold_run.
  cbn [flash_size_kb freq_mhz num_irq parent_obj set_flash_size_kb
       set_freq_mhz set_num_irq].
  change (clock_scale_expr 50) with (Some 20).
  change (C.uint64_t (C.int (C.mul64 (1 * 1024) 1024))) with 1048576.
  change (C.int (C.mul64 (1 * 1024) 1024)) with 1048576.
  change (C.uint32_t 64) with 64.
  change (C.int 20) with 20.
  unfold_run. cbn [stop_reason]. simpl. rewrite Hint.
  repeat split.
Qed.

Lemma defaults_assemble_witness :
  cooperative all_ok /\
  0 <= ram_size (parent_obj default_machine) < 2 ^ 31 /\
  stop_reason (virt_cortex_m_init all_ok
                 (boot (virt_cortex_m_instance_init default_machine)))
  = None /\
  published_scale all_ok (virt_cortex_m_instance_init default_machine)
  = Some 20.
Proof.
  assert (HP : cooperative all_ok) by now repeat split.
  assert (Hs : 0 <= ram_size (parent_obj default_machine) < 2 ^ 31)
    by (simpl; lia).
  split; [exact HP|]. split; [exact Hs|].
  destruct (defaults_assemble all_ok default_machine HP Hs)
    as (Hstop & _ & _ & Hscale & _).
  split; [exact Hstop|exact Hscale].
Defined.

Lemma stop_cooperative P m :
  cooperative P ->
  stop_reason (virt_cortex_m_init P (boot m))
  = match clock_scale_expr (freq_mhz m) with
    | Some _ => None
    | None => Some DivideError
    end.
Proof.
  intros (Hrom & Hram & Hlink & Hreal). platform_cases P. unfold_run.
  now destruct (clock_scale_expr (freq_mhz m)).
Qed.

(** X22.  Configuration reaches assembly: starting from a fresh
    instance, setting flash_kb, freq_mhz and num_irq through their
    properties to values in range (0 < flash_kb < 2^21,
    0 < freq_mhz <= 9_223_372_036_854, 0 <= num_irq < 2^32) succeeds, and
    on a platform where every call succeeds the configured machine, with
    a requested RAM size below 2^31, assembles to the end with
    flash_kb * 1024 bytes of flash at 0, the RAM at 0x20000000, the clock
    scale 1_000_000_000 / (freq_mhz * 1_000_000) and num_irq lines. *)
Theorem configured_machine_assembles (P : Platform)
    (m : VirtCortexMMachineState) (kb mhz irqs : Z) :
  cooperative P ->
  0 < kb < 2 ^ 21 ->
  0 < mhz <= 9223372036854 ->
  0 <= irqs < 2 ^ 32 ->
  0 <= ram_size (parent_obj m) < 2 ^ 31 ->
  exists m' : VirtCortexMMachineState,
    (object_property_set virt_cortex_m_class "flash_kb" kb
       (virt_cortex_m_instance_init m)
       ≫= object_property_set virt_cortex_m_class "freq_mhz" mhz)
      ≫= object_property_set virt_cortex_m_class "num_irq" irqs
    = Some m' /\
    stop_reason (virt_cortex_m_init P (boot m')) = None /\
    region_range flash (calls P m') = Some (0, kb * 1024) /\
    region_range sram (calls P m')
    = Some (0x20000000, 0x20000000 + ram_size (parent_obj m)) /\
    published_scale P m' = Some (1000000000 / (mhz * 1000000)) /\
    nvic_prop "num-irq" (calls P m') = Some (PUint32 irqs).
Proof.
  intros HP Hkb [Hpos Hmax] Hirq Hram.
  pose proof HP as (Hrom & Hramok & Hlink & Hreal).
  assert (Hfit : mhz * 1000000 <= C.INT64_MAX).
  { unfold C.INT64_MAX. change (2 ^ 63) with 9223372036854775808. lia. }
  destruct (clock_scale_exact mhz Hpos Hfit) as [Hexpr Hint].
  exists (set_num_irq irqs
            (set_freq_mhz mhz
               (set_flash_size_kb kb (virt_cortex_m_instance_init m)))).
  split.
  { rewrite set_flash_kb. cbn [mbind option_bind].
    rewrite set_freq. cbn [mbind option_bind]. now rewrite set_irq. }
  split.
  { rewrite stop_cooperative by exact HP.
    cbn [freq_mhz set_num_irq set_freq_mhz]. now rewrite Hexpr. }
  unfold region_range, nvic_prop.
  rewrite flash_size_passed, flash_base by exact Hrom.
  rewrite sram_size_passed, sram_base by assumption.
  rewrite published_cooperative by exact HP.
  rewrite props_when_realized by assumption.
  cbn [flash_size_kb freq_mhz num_irq parent_obj set_num_irq set_freq_mhz
       set_flash_size_kb virt_cortex_m_instance_init].
  rewrite flash_size_arg_exact by exact Hkb.
  rewrite size_of_nonneg_int by lia.
  rewrite uint32_id by exact Hirq.
  rewrite Hexpr. cbn [mbind option_bind fmap option_fmap option_map].
  rewrite Hint.
  rewrite !lookup_insert_ne by discriminate. rewrite lookup_insert_eq.
  now repeat split.
Qed.

Lemma configured_machine_assembles_witness :
  cooperative all_ok /\
  0 < 64 < 2 ^ 21 /\ 0 < 25 <= 9223372036854 /\ 0 <= 32 < 2 ^ 32 /\
  0 <= ram_size (parent_obj small_machine) < 2 ^ 31 /\
  exists m' : VirtCortexMMachineState,
    (object_property_set virt_cortex_m_class "flash_kb" 64
       (virt_cortex_m_instance_init small_machine)
       ≫= object_property_set virt_cortex_m_class "freq_mhz" 25)
      ≫= object_property_set virt_cortex_m_class "num_irq" 32
    = Some m' /\
    stop_reason (virt_cortex_m_init all_ok (boot m')) = None /\
    region_range flash (calls all_ok m') = Some (0, 64 * 1024) /\
    region_range sram (calls all_ok m')
    = Some (0x20000000, 0x20000000 + ram_size (parent_obj small_machine)) /\
    published_scale all_ok m' = Some (1000000000 / (25 * 1000000)) /\
    nvic_prop "num-irq" (calls all_ok m') = Some (PUint32 32).
Proof.
  assert (HP : cooperative all_ok) by now repeat split.
  assert (H1 : 0 < 64 < 2 ^ 21) by lia.
  assert (H2 : 0 < 25 <= 9223372036854) by lia.
  assert (H3 : 0 <= 32 < 2 ^ 32) by lia.
  assert (H4 : 0 <= ram_size (parent_obj small_machine) < 2 ^ 31)
    by (simpl; lia).
  split; [exact HP|]. split; [exact H1|]. split; [exact H2|].
  split; [exact H3|]. split; [exact H4|].
  exact (configured_machine_assembles all_ok small_machine 64 25 32
           HP H1 H2 H3 H4).
Defined.
